(** * Host-device runtime orchestrator: C API boundary, AICPU kernel
      entry points, simulated device-time counter, DeviceRunner session.

    Shallow embedding of

    - [src/platform/a2a3sim/aicpu/device_time.cpp]      (module [DeviceTime]),
    - [src/platform/a2a3sim/host/pto_runtime_c_api.cpp] (module [CApi]),
    - [src/platform/a2a3/aicpu/kernel.cpp]              (module [AicpuKernel]),

    and a model of the [DeviceRunner] session operations declared in
    [src/platform/a2a3/host/device_runner.h] (module [Runner]), whose
    bodies are not among the sources and are written from the
    specification.

    Integers of the program are [Z]; a pointer is a [Z] address with
    [NULL = 0], or an [option] when the code reads through it; unsigned
    64-bit arithmetic has its wrap-around written out with [u64].  The
    definitions come first, the properties after them. *)

From Stdlib Require Import ZArith Lia List String Bool.
From stdpp Require Import base gmap sets list.

Local Open Scope Z_scope.

(* ===================================================================== *)
(** ** Simulated tick counter ([a2a3sim/aicpu/device_time.cpp])          *)
(* ===================================================================== *)

Module DeviceTime.

(** [uint64_t] arithmetic wraps modulo [2^64]. *)
Definition u64 (x : Z) : Z := x mod 2 ^ 64.

(** [constexpr uint64_t kNsPerSec = std::nano::den;] *)
Definition kNsPerSec : Z := 1000000000.

(** [get_sys_cnt_aicpu()] of the simulation.  The two inputs are what
    the function reads from its environment: [freq] is the constant
    [PLATFORM_PROF_SYS_CNT_FREQ] of [common/platform_config.h], and
    [elapsed_ns] is the [uint64_t] nanosecond count of the host clock
    ([now.time_since_epoch()]).  Every [uint64_t] operation of the body is
    followed by its wrap-around. *)
Definition get_sys_cnt_aicpu (freq elapsed_ns : Z) : Z :=
  let seconds := elapsed_ns / kNsPerSec in
  let remaining_ns := elapsed_ns mod kNsPerSec in
  let ticks :=
    u64 (u64 (seconds * freq) + u64 (remaining_ns * freq) / kNsPerSec) in
  ticks.

(** The single-product conversion the body avoids:
    [elapsed_ns * freq / kNsPerSec] in [uint64_t]. *)
Definition naive_ticks (freq elapsed_ns : Z) : Z :=
  u64 (elapsed_ns * freq) / kNsPerSec.

End DeviceTime.

(* ===================================================================== *)
(** ** Programs over external collaborators                              *)
(* ===================================================================== *)

(** The entry points of [pto_runtime_c_api.cpp] and [kernel.cpp] are thin
    layers over functions and classes defined elsewhere ([DeviceRunner],
    [Runtime], [init_runtime_impl], [validate_runtime_impl],
    [AicpuExecute], the logging macros).  An entry point is embedded as a
    program that issues calls of an event type [E] to those collaborators
    and continues with what the call produced: a value, or a C++
    exception in flight.  All state lives behind the collaborators, so a
    program that issues no call has no effect. *)

Module Effects.

(** How a call (or a whole entry point) ends. *)
Inductive outcome (A : Type) : Type :=
  | Return (a : A)
  | Throw.
Arguments Return {A} a.
Arguments Throw {A}.

Inductive Prog (E A : Type) : Type :=
  | Ret (a : A)
  | Raise
  | Do (c : E) (k : outcome Z -> Prog E A).
Arguments Ret {E A} a.
Arguments Raise {E A}.
Arguments Do {E A} c k.

Fixpoint bind {E A B} (p : Prog E A) (f : A -> Prog E B) : Prog E B :=
  match p with
  | Ret a => f a
  | Raise => Raise
  | Do c k => Do c (fun o => bind (k o) f)
  end.

(** A call whose exception, if any, propagates to the enclosing handler. *)
Definition call {E} (c : E) : Prog E Z :=
  Do c (fun o => match o with Return v => Ret v | Throw => Raise end).

(** [try { body } catch (...) { handler }]. *)
Fixpoint try_catch {E A} (body handler : Prog E A) : Prog E A :=
  match body with
  | Ret a => Ret a
  | Raise => handler
  | Do c k => Do c (fun o => try_catch (k o) handler)
  end.

(** Running a program against an implementation [h] of the collaborators
    over a world [W]. *)
Fixpoint interp {E W A} (h : E -> W -> outcome Z * W) (p : Prog E A) (w : W)
  : outcome A * W :=
  match p with
  | Ret a => (Return a, w)
  | Raise => (Throw, w)
  | Do c k => let '(o, w') := h c w in interp h (k o) w'
  end.

(** The same implementation with every call and its outcome logged, in
    issue order. *)
Definition logged {E W} (h : E -> W -> outcome Z * W)
  : E -> W * list (E * outcome Z) -> outcome Z * (W * list (E * outcome Z)) :=
  fun c '(w, tr) => let '(o, w') := h c w in (o, (w', tr ++ [(c, o)])).

(** The calls a program issues under [h] from [w], with their outcomes. *)
Definition trace_of {E W A} (h : E -> W -> outcome Z * W) (p : Prog E A) (w : W)
  : list (E * outcome Z) :=
  snd (snd (interp (logged h) p (w, []))).

Definition result_of {E W A} (h : E -> W -> outcome Z * W) (p : Prog E A) (w : W)
  : outcome A :=
  fst (interp h p w).

Definition is_throw {A} (o : outcome A) : bool :=
  match o with Throw => true | Return _ => false end.

End Effects.

Declare Scope prog_scope.
Delimit Scope prog_scope with prog.
Notation "x <- c ;; k" := (Effects.bind c (fun x => k))
  (at level 100, c at next level, right associativity) : prog_scope.
Notation "c ;;; k" := (Effects.bind c (fun _ => k))
  (at level 100, right associativity) : prog_scope.

(* ===================================================================== *)
(** ** The host C API ([a2a3sim/host/pto_runtime_c_api.cpp])             *)
(* ===================================================================== *)

Module CApi.
Import Effects.
Local Open Scope prog_scope.

Definition NULL : Z := 0.

(** The function-pointer slots of [Runtime::host_api] and the C functions
    stored in them. *)
Inductive HostApiSlot : Type :=
  | slot_device_malloc
  | slot_device_free
  | slot_copy_to_device
  | slot_copy_from_device
  | slot_upload_kernel_binary.

Inductive ApiFn : Type :=
  | fn_device_malloc
  | fn_device_free
  | fn_copy_to_device
  | fn_copy_from_device
  | fn_upload_kernel_binary_wrapper.

(** The arguments [init_runtime] forwards untouched to
    [init_runtime_impl]: pointers are addresses, counts and sizes are
    integers. *)
Record InitArgs : Type := {
  orch_so_binary : Z;
  orch_so_size : Z;
  orch_func_name : Z;
  func_args : Z;
  func_args_count : Z;
  arg_types : Z;
  arg_sizes : Z;
  kernel_func_ids : Z;
  kernel_binaries : Z;
  kernel_sizes : Z;
  kernel_count : Z
}.

(** A [const uint8_t*] argument: [None] is the null pointer, [Some l] a
    pointer to a host buffer holding the bytes [l]. *)
Definition HostBuf : Type := option (list Byte.byte).

(** What the C API calls and does not define.  [Runtime*] arguments are
    the address of the caller's storage. *)
Inductive Call : Type :=
  (* class Runtime (runtime.h) *)
  | RuntimeNew (runtime : Z)                        (* new (runtime) Runtime() *)
  | RuntimeDelete (r : Z)                           (* r->~Runtime() *)
  | StoreHostApi (r : Z) (slot : HostApiSlot) (fn : ApiFn)
  | StoreEnableProfiling (r : Z) (on : bool)
  | RuntimeRecordTensorPair (r host_ptr dev_ptr size : Z)
  (* std::vector<uint8_t>::assign, which allocates *)
  | VectorAssign (size : Z)
  (* runtimemaker.cpp *)
  | InitRuntimeImpl (r : Z) (a : InitArgs)
  | ValidateRuntimeImpl (r : Z)
  (* class DeviceRunner *)
  | DeviceRunnerGet
  | AllocateTensor (size : Z)
  | FreeTensor (dev_ptr : Z)
  | RunnerCopyToDevice (dev_ptr host_ptr size : Z)
  | RunnerCopyFromDevice (host_ptr dev_ptr size : Z)
  | RunnerUploadKernelBinary (func_id : Z) (bin_data : HostBuf) (bin_size : Z)
  | RunnerRun (r block_dim device_id : Z)
              (aicpu_so_binary aicore_kernel_binary : list Byte.byte)
              (launch_aicpu_num : Z)
  | RunnerCleanCache
  | RunnerFinalize.

Definition P (A : Type) : Type := Prog Call A.

(** [size_t get_runtime_size(void)]; [sizeof(Runtime)] is fixed by the
    class declaration. *)
Definition get_runtime_size (sizeof_Runtime : Z) : P Z := Ret sizeof_Runtime.

Definition init_runtime (runtime : Z) (a : InitArgs) : P Z :=
  if runtime =? NULL then Ret (-1)
  else
    try_catch
      (let r := runtime in
       call (RuntimeNew runtime) ;;;
       call (StoreHostApi r slot_device_malloc fn_device_malloc) ;;;
       call (StoreHostApi r slot_device_free fn_device_free) ;;;
       call (StoreHostApi r slot_copy_to_device fn_copy_to_device) ;;;
       call (StoreHostApi r slot_copy_from_device fn_copy_from_device) ;;;
       call (StoreHostApi r slot_upload_kernel_binary
               fn_upload_kernel_binary_wrapper) ;;;
       result <- call (InitRuntimeImpl r a) ;;
       (if negb (result =? 0) then call (RuntimeDelete r) else Ret 0) ;;;
       Ret result)
      (Ret (-1)).

Definition device_malloc (size : Z) : P Z :=
  try_catch
    (call DeviceRunnerGet ;;;
     call (AllocateTensor size))
    (Ret NULL).

Definition device_free (dev_ptr : Z) : P unit :=
  if dev_ptr =? NULL then Ret tt
  else
    try_catch
      (call DeviceRunnerGet ;;;
       call (FreeTensor dev_ptr) ;;;
       Ret tt)
      (Ret tt).

Definition copy_to_device (dev_ptr host_ptr size : Z) : P Z :=
  if (dev_ptr =? NULL) || (host_ptr =? NULL) then Ret (-1)
  else
    try_catch
      (call DeviceRunnerGet ;;;
       call (RunnerCopyToDevice dev_ptr host_ptr size))
      (Ret (-1)).

Definition copy_from_device (host_ptr dev_ptr size : Z) : P Z :=
  if (host_ptr =? NULL) || (dev_ptr =? NULL) then Ret (-1)
  else
    try_catch
      (call DeviceRunnerGet ;;;
       call (RunnerCopyFromDevice host_ptr dev_ptr size))
      (Ret (-1)).

Definition upload_kernel_binary_wrapper
    (func_id : Z) (bin_data : HostBuf) (bin_size : Z) : P Z :=
  try_catch
    (call DeviceRunnerGet ;;;
     call (RunnerUploadKernelBinary func_id bin_data bin_size))
    (Ret 0).

(** [if (p != NULL && size > 0) vec.assign(p, p + size);] on a vector
    that starts empty. *)
Definition assign_if_present (p : HostBuf) (size : Z) : P (list Byte.byte) :=
  match p with
  | Some bytes =>
      if 0 <? size then
        call (VectorAssign size) ;;;
        Ret (firstn (Z.to_nat size) bytes)
      else Ret []
  | None => Ret []
  end.

Definition launch_runtime (runtime aicpu_thread_num block_dim device_id : Z)
    (aicpu_binary : HostBuf) (aicpu_size : Z)
    (aicore_binary : HostBuf) (aicore_size : Z) : P Z :=
  if runtime =? NULL then Ret (-1)
  else
    try_catch
      (call DeviceRunnerGet ;;;
       aicpu_vec <- assign_if_present aicpu_binary aicpu_size ;;
       aicore_vec <- assign_if_present aicore_binary aicore_size ;;
       let r := runtime in
       call (RunnerRun r block_dim device_id aicpu_vec aicore_vec
               aicpu_thread_num))
      (Ret (-1)).

Definition finalize_runtime (runtime : Z) : P Z :=
  if runtime =? NULL then Ret (-1)
  else
    try_catch
      (let r := runtime in
       rc <- call (ValidateRuntimeImpl r) ;;
       call DeviceRunnerGet ;;;
       call RunnerCleanCache ;;;
       call RunnerFinalize ;;;
       call (RuntimeDelete r) ;;;
       Ret rc)
      (Ret (-1)).

Definition set_device (device_id : Z) : P Z := Ret 0.

Definition enable_runtime_profiling (runtime enabled : Z) : P Z :=
  if runtime =? NULL then Ret (-1)
  else
    try_catch
      (let r := runtime in
       call (StoreEnableProfiling r (negb (enabled =? 0))) ;;;
       Ret 0)
      (Ret (-1)).

Definition record_tensor_pair (runtime host_ptr dev_ptr size : Z) : P unit :=
  if runtime =? NULL then Ret tt
  else
    let r := runtime in
    call (RuntimeRecordTensorPair r host_ptr dev_ptr size) ;;;
    Ret tt.

End CApi.

(* ===================================================================== *)
(** ** AICPU kernel entry points ([a2a3/aicpu/kernel.cpp])               *)
(* ===================================================================== *)

Module AicpuKernel.
Import Effects.
Local Open Scope prog_scope.

(** [KernelArgs] (kernel_args.h): the one field [kernel.cpp] reads. *)
Record KernelArgs : Type := { runtimeArgs : Z }.

(** [void *arg]: [None] is [nullptr], [Some k] points to a [KernelArgs]. *)
Definition ArgPtr : Type := option KernelArgs.

Inductive LogLevel : Type := LvlError | LvlInfo.

Inductive Call : Type :=
  | InitLogSwitch
  | DevLog (lvl : LogLevel) (msg : string) (rc : option Z)
  | AicpuExecute (runtime : Z).

Definition P (A : Type) : Type := Prog Call A.

(** [InitLogSwitch] and the logging macros are plain C calls of
    [device_log.h]: the entry points read no result of theirs, and a C
    call raises nothing. *)
Definition quiet (c : Call) : P unit := Do c (fun _ => Ret tt).

Definition DEV_ERROR (msg : string) : P unit := quiet (DevLog LvlError msg None).
Definition DEV_INFO (msg : string) : P unit := quiet (DevLog LvlInfo msg None).

Definition is_logging (c : Call) : bool :=
  match c with
  | InitLogSwitch | DevLog _ _ _ => true
  | AicpuExecute _ => false
  end.

Definition StaticTileFwkBackendKernelServer (arg : ArgPtr) : P Z :=
  match arg with
  | None =>
      DEV_ERROR "Invalid kernel arguments: null pointer" ;;;
      Ret (-1)
  | Some _ => Ret 0
  end.

Definition DynTileFwkBackendKernelServerInit (arg : ArgPtr) : P Z :=
  quiet InitLogSwitch ;;;
  match arg with
  | None =>
      DEV_ERROR "Invalid kernel arguments: null pointer" ;;;
      Ret (-1)
  | Some _ =>
      DEV_INFO "Runtime Executor Init: Initializing AICPU kernel" ;;;
      Ret 0
  end.

Definition DynTileFwkBackendKernelServer (arg : ArgPtr) : P Z :=
  match arg with
  | None =>
      DEV_ERROR "Invalid kernel arguments: null pointer" ;;;
      Ret (-1)
  | Some kargs =>
      let runtime := runtimeArgs kargs in
      if runtime =? 0 then
        DEV_ERROR "Invalid runtimeArgs: null pointer" ;;;
        Ret (-1)
      else
        DEV_INFO "DynTileFwkBackendKernelServer: Calling AicpuExecute with Runtime" ;;;
        rc <- call (AicpuExecute runtime) ;;
        if negb (rc =? 0) then
          quiet (DevLog LvlError
                   "DynTileFwkBackendKernelServer: AicpuExecute failed with rc=%d"
                   (Some rc)) ;;;
          Ret rc
        else
          DEV_INFO "DynTileFwkBackendKernelServer: AicpuExecute completed successfully" ;;;
          Ret rc
  end.

End AicpuKernel.

(* ===================================================================== *)
(** ** Observing the C API: reference collaborators, session lifetimes   *)
(* ===================================================================== *)

Module CApiObs.
Import Effects CApi.

(** Collaborators that succeed with status [0]; their state is the list
    of calls they served. *)
Definition always_ok (c : Call) (served : list Call) : outcome Z * list Call :=
  (Return 0, served ++ [c]).

(** Collaborators that raise an exception on every call. *)
Definition always_throw (c : Call) (served : list Call) : outcome Z * list Call :=
  (Throw, served ++ [c]).

(** Collaborators whose statuses are scripted: validation succeeds while
    both cleanup steps report an error code. *)
Definition failing_cleanup (c : Call) (served : list Call) : outcome Z * list Call :=
  match c with
  | RunnerCleanCache => (Return (-5), served ++ [c])
  | RunnerFinalize => (Return (-7), served ++ [c])
  | _ => (Return 0, served ++ [c])
  end.

(** A run that fails with an error code; everything else succeeds. *)
Definition failing_run (c : Call) (served : list Call) : outcome Z * list Call :=
  match c with
  | RunnerRun _ _ _ _ _ _ => (Return (-3), served ++ [c])
  | _ => (Return 0, served ++ [c])
  end.

(** The [Runtime] object a call dereferences, if any.  [RuntimeNew] takes
    raw storage and dereferences nothing. *)
Definition uses_session (c : Call) : option Z :=
  match c with
  | RuntimeDelete r
  | StoreHostApi r _ _
  | StoreEnableProfiling r _
  | RuntimeRecordTensorPair r _ _ _
  | InitRuntimeImpl r _
  | ValidateRuntimeImpl r
  | RunnerRun r _ _ _ _ _ => Some r
  | _ => None
  end.

(** Lifetime discipline of session objects along a sequence of calls:
    [live] is the set of storages holding a constructed [Runtime]; a
    dereference needs a live object, a destruction needs one and ends its
    lifetime. *)
Fixpoint lifetime_ok (live : gset Z) (calls : list Call) : bool :=
  match calls with
  | [] => true
  | RuntimeNew r :: rest => lifetime_ok (live ∪ {[r]}) rest
  | RuntimeDelete r :: rest =>
      bool_decide (r ∈ live) && lifetime_ok (live ∖ {[r]}) rest
  | c :: rest =>
      match uses_session c with
      | Some r => bool_decide (r ∈ live)
      | None => true
      end && lifetime_ok live rest
  end.

Definition is_delete_of (r : Z) (c : Call) : bool :=
  match c with
  | RuntimeDelete r' => r' =? r
  | _ => false
  end.

Definition destructions (r : Z) (calls : list Call) : nat :=
  length (List.filter (is_delete_of r) calls).

(** The sequence [finalize_runtime] is written to perform. *)
Definition finalize_sequence (r : Z) : list Call :=
  [ValidateRuntimeImpl r; DeviceRunnerGet; RunnerCleanCache; RunnerFinalize;
   RuntimeDelete r].

Definition no_throw {E} (tr : list (E * outcome Z)) : Prop :=
  Forall (fun e => is_throw (snd e) = false) tr.

Definition some_throw {E} (tr : list (E * outcome Z)) : Prop :=
  Exists (fun e => is_throw (snd e) = true) tr.

End CApiObs.

(* ===================================================================== *)
(** ** The DeviceRunner session ([a2a3/host/device_runner.h])            *)
(* ===================================================================== *)

(** [device_runner.h] declares the class and documents its methods; the
    method bodies, [MemoryAllocator] and the device runtime are in files
    outside this development.  The state below follows the private
    members of the header; each operation is modelled from the
    specification (sections 3, 4.1, 4.2, 4.5 and 7) and from the header's
    doc comment of the method. *)

Module Runner.

(** Modelled from the spec: the two execution queues of a session
    (section 3), the control-core queue and the compute-core queue. *)
Inductive Queue : Type := CtrlQueue | ComputeQueue.

(** Modelled from the spec: what a copy to the device carries (section
    4.1 [copy_to_device], section 4.2 kernel binaries, section 4.5 the
    control-core payload and its argument layout). *)
Inductive Payload : Type :=
  | KernelBytes (func_id : Z) (bytes : list Byte.byte)
  | ControlSo (bytes : list Byte.byte)
  | DeviceArgsImage (aicpu_so_bin aicpu_so_len : Z)
  | HostBytes (host_ptr size : Z).

(** Modelled from the spec: the primitives of the backend (section 2):
    select a device, create and destroy execution queues, device memory,
    copies. *)
Inductive DevCall : Type :=
  | SetDevice (device_id : Z)
  | ResetDevice (device_id : Z)
  | CreateQueue (q : Queue)
  | DestroyQueue (q : Queue)
  | DevMalloc (bytes : Z)
  | DevFree (addr : Z)
  | CopyToDevice (dst : Z) (what : Payload)
  | CopyFromDevice (host_ptr src size : Z).

(** Modelled from the spec: the backend, as a call-count collaborator
    (section 8).  [issued] lists the primitive calls served so far;
    [fails k] tells whether the [k]-th call (from 0) reports an error;
    [next_addr] is the device address the next successful allocation
    returns, so that no two allocations alias (section 3). *)
Record Backend : Type := {
  issued : list DevCall;
  fails : nat -> bool;
  next_addr : positive
}.

(** The private members of [class DeviceRunner] that the session
    operations read or write.  [stream_aicpu_] and [stream_aicore_] are
    the control-core and compute-core queues, [0] standing for
    [nullptr]; [mem_alloc_] is the set of device addresses the
    [MemoryAllocator] tracks; [so_info_] and [device_args_] hold the
    device addresses of the control-core payload and of its argument
    block, [0] when absent. *)
Record DeviceRunner : Type := {
  device_id_ : Z;
  mem_alloc_ : gset Z;
  stream_aicpu_ : Z;
  stream_aicore_ : Z;
  so_info_ : Z;
  device_args_ : Z;
  binaries_loaded_ : bool;
  func_id_to_addr_ : gmap Z Z
}.

(** Modelled from the spec: the host process, that is the singleton
    runner and the device behind it (section 5, shared-resource
    policy). *)
Record Host : Type := { runner : DeviceRunner; dev : Backend }.

(** Member initialisers of the header: [device_id_{-1}], null streams,
    [binaries_loaded_{false}], empty map. *)
Definition fresh_runner : DeviceRunner :=
  {| device_id_ := -1; mem_alloc_ := ∅; stream_aicpu_ := 0; stream_aicore_ := 0;
     so_info_ := 0; device_args_ := 0; binaries_loaded_ := false;
     func_id_to_addr_ := ∅ |}.

Definition fresh_host (plan : nat -> bool) : Host :=
  {| runner := fresh_runner;
     dev := {| issued := []; fails := plan; next_addr := 1%positive |} |}.

Definition no_faults : nat -> bool := fun _ => false.

Definition set_runner (r : DeviceRunner) (h : Host) : Host :=
  {| runner := r; dev := dev h |}.

Definition set_mem_alloc (m : gset Z) (r : DeviceRunner) : DeviceRunner :=
  {| device_id_ := device_id_ r; mem_alloc_ := m;
     stream_aicpu_ := stream_aicpu_ r; stream_aicore_ := stream_aicore_ r;
     so_info_ := so_info_ r; device_args_ := device_args_ r;
     binaries_loaded_ := binaries_loaded_ r;
     func_id_to_addr_ := func_id_to_addr_ r |}.

Definition set_func_id_to_addr (m : gmap Z Z) (r : DeviceRunner) : DeviceRunner :=
  {| device_id_ := device_id_ r; mem_alloc_ := mem_alloc_ r;
     stream_aicpu_ := stream_aicpu_ r; stream_aicore_ := stream_aicore_ r;
     so_info_ := so_info_ r; device_args_ := device_args_ r;
     binaries_loaded_ := binaries_loaded_ r;
     func_id_to_addr_ := m |}.

Definition set_device_state (id sa sc : Z) (r : DeviceRunner) : DeviceRunner :=
  {| device_id_ := id; mem_alloc_ := mem_alloc_ r;
     stream_aicpu_ := sa; stream_aicore_ := sc;
     so_info_ := so_info_ r; device_args_ := device_args_ r;
     binaries_loaded_ := binaries_loaded_ r;
     func_id_to_addr_ := func_id_to_addr_ r |}.

Definition set_binaries (so args : Z) (loaded : bool) (r : DeviceRunner)
  : DeviceRunner :=
  {| device_id_ := device_id_ r; mem_alloc_ := mem_alloc_ r;
     stream_aicpu_ := stream_aicpu_ r; stream_aicore_ := stream_aicore_ r;
     so_info_ := so; device_args_ := args;
     binaries_loaded_ := loaded;
     func_id_to_addr_ := func_id_to_addr_ r |}.

(** Modelled from the spec: the resource handle of a created queue
    (section 3, session state); any non-null token does. *)
Definition queue_handle (q : Queue) : Z :=
  match q with CtrlQueue => 1 | ComputeQueue => 2 end.

(** Modelled from the spec: one primitive call of the backend, logged,
    and successful unless the plan says otherwise. *)
Definition dev_call (c : DevCall) (h : Host) : bool * Host :=
  let b := dev h in
  (negb (fails b (length (issued b))),
   {| runner := runner h;
      dev := {| issued := issued b ++ [c]; fails := fails b;
                next_addr := next_addr b |} |}).

(** Modelled from the spec: [MemoryAllocator::alloc] (section 4.1).  A
    size of zero and a refusal of the device both give the failure
    value [0]; a granted address is fresh and is tracked. *)
Definition mem_alloc (bytes : Z) (h : Host) : Z * Host :=
  if bytes <=? 0 then (0, h)
  else
    let '(ok, h1) := dev_call (DevMalloc bytes) h in
    if ok then
      let a := Z.pos (next_addr (dev h1)) in
      (a,
       {| runner := set_mem_alloc ({[a]} ∪ mem_alloc_ (runner h1)) (runner h1);
          dev := {| issued := issued (dev h1); fails := fails (dev h1);
                    next_addr := next_addr (dev h1) + Z.to_pos bytes |} |})
    else (0, h1).

(** Modelled from the spec: [MemoryAllocator::free] (section 4.1).  An
    address the allocator does not track is rejected before the device
    is asked; a tracked one is released and forgotten. *)
Definition mem_free (p : Z) (h : Host) : Z * Host :=
  if bool_decide (p ∈ mem_alloc_ (runner h)) then
    let '(ok, h1) := dev_call (DevFree p) h in
    (if ok then 0 else -1,
     set_runner (set_mem_alloc (mem_alloc_ (runner h1) ∖ {[p]}) (runner h1)) h1)
  else (-1, h).

(** Modelled from the spec: releasing several addresses, one [free]
    each, as the cache clear and the teardown do (section 4.5). *)
Fixpoint mem_free_all (ps : list Z) (h : Host) : Host :=
  match ps with
  | [] => h
  | p :: rest => mem_free_all rest (snd (mem_free p h))
  end.

(** Modelled from the spec: "whether the device is set" (section 3).
    The header keeps no flag for it; the device is set once the
    control-core queue exists. *)
Definition device_is_set (r : DeviceRunner) : bool :=
  negb (stream_aicpu_ r =? 0).

(** Modelled from the spec: [DeviceRunner::ensure_device_set] (section
    4.5, section 7 (b)).  Nothing happens when the device is already
    set.  Otherwise the device is selected and the two queues are
    created; on a failure the status is negative and the session remains
    uninitialised. *)
Definition ensure_device_set (device_id : Z) (h : Host) : Z * Host :=
  if device_is_set (runner h) then (0, h)
  else
    let '(ok, h1) := dev_call (SetDevice device_id) h in
    if negb ok then (-1, h1)
    else
      let '(ok, h2) := dev_call (CreateQueue CtrlQueue) h1 in
      if negb ok then (-1, h2)
      else
        let '(ok, h3) := dev_call (CreateQueue ComputeQueue) h2 in
        if negb ok then
          let '(_, h4) := dev_call (DestroyQueue CtrlQueue) h3 in
          (-1, h4)
        else
          (0,
           set_runner
             (set_device_state device_id (queue_handle CtrlQueue)
                (queue_handle ComputeQueue) (runner h3)) h3).

(** Modelled from the spec: the bytes [bin_data[0 .. bin_size)] of a
    kernel binary; a null pointer or a size of zero is an invalid
    argument (section 7 (a)). *)
Definition kernel_bytes (bin_data : CApi.HostBuf) (bin_size : Z)
  : option (list Byte.byte) :=
  match bin_data with
  | Some bytes => if 0 <? bin_size then Some (firstn (Z.to_nat bin_size) bytes) else None
  | None => None
  end.

(** Modelled from the spec: [DeviceRunner::upload_kernel_binary]
    (section 4.2, section 4.5; header: "ensure_device_set() must be
    called before this function", "returns the cached address without
    re-uploading", "0 on error").  Before the device is set the call
    fails.  A bound [func_id] answers its cached address at once.
    Otherwise device memory is obtained, the bytes are copied, and the
    address is bound; a failed copy gives the memory back. *)
Definition upload_kernel_binary
    (func_id : Z) (bin_data : CApi.HostBuf) (bin_size : Z) (h : Host) : Z * Host :=
  if negb (device_is_set (runner h)) then (0, h)
  else
    match func_id_to_addr_ (runner h) !! func_id with
    | Some addr => (addr, h)
    | None =>
        match kernel_bytes bin_data bin_size with
        | None => (0, h)
        | Some bytes =>
            let '(addr, h1) := mem_alloc bin_size h in
            if addr =? 0 then (0, h1)
            else
              let '(ok, h2) := dev_call (CopyToDevice addr (KernelBytes func_id bytes)) h1 in
              if negb ok then (0, snd (mem_free addr h2))
              else
                (addr,
                 set_runner
                   (set_func_id_to_addr
                      (<[func_id := addr]> (func_id_to_addr_ (runner h2)))
                      (runner h2)) h2)
        end
    end.

(** [sizeof(DeviceArgs)]: twelve unused words, [aicpu_so_bin] and
    [aicpu_so_len], eight bytes each. *)
Definition sizeof_DeviceArgs : Z := 14 * 8.

(** Modelled from the spec: [DeviceRunner::ensure_binaries_loaded]
    (section 4.5).  Skipped when the flag is set; otherwise the
    control-core payload and its fixed argument block are placed in
    device memory and the flag is set.  A failure leaves no memory of
    this attempt behind (section 7 (c)). *)
Definition ensure_binaries_loaded (aicpu_so_binary : list Byte.byte) (h : Host)
  : Z * Host :=
  if binaries_loaded_ (runner h) then (0, h)
  else
    let len := Z.of_nat (length aicpu_so_binary) in
    let '(so, h1) := mem_alloc len h in
    if so =? 0 then (-1, h1)
    else
      let '(ok, h2) := dev_call (CopyToDevice so (ControlSo aicpu_so_binary)) h1 in
      if negb ok then (-1, snd (mem_free so h2))
      else
        let '(args, h3) := mem_alloc sizeof_DeviceArgs h2 in
        if args =? 0 then (-1, snd (mem_free so h3))
        else
          let '(ok, h4) := dev_call (CopyToDevice args (DeviceArgsImage so len)) h3 in
          if negb ok then (-1, snd (mem_free so (snd (mem_free args h4))))
          else (0, set_runner (set_binaries so args true (runner h4)) h4).

(** Modelled from the spec: the device memory that holds binaries
    (section 3: a cache clear "discards binaries and the FuncIdToAddress
    map"), that is every bound kernel and, once loaded, the control-core
    payload and its argument block. *)
Definition kernel_memory (r : DeviceRunner) : list Z :=
  (snd <$> map_to_list (func_id_to_addr_ r)) ++
  (if binaries_loaded_ r then [so_info_ r; device_args_ r] else []).

(** Modelled from the spec: [DeviceRunner::clean_cache] (section 4.5;
    header: "frees kernel memory from global memory allocator, clears
    kernel address cache").  Binary memory is released through the
    allocator, the map and the binaries-loaded flag are cleared. *)
Definition clean_cache (h : Host) : Z * Host :=
  let h1 := mem_free_all (kernel_memory (runner h)) h in
  (0,
   set_runner
     (set_func_id_to_addr ∅ (set_binaries 0 0 false (runner h1))) h1).

(** Modelled from the spec: [DeviceRunner::finalize] (section 4.5).
    All session memory is released, the queues are destroyed, the device
    is reset, and every member returns to its initial value. *)
Definition finalize (h : Host) : Z * Host :=
  let h1 := mem_free_all (elements (mem_alloc_ (runner h))) h in
  if device_is_set (runner h1) then
    let '(_, h2) := dev_call (DestroyQueue CtrlQueue) h1 in
    let '(_, h3) := dev_call (DestroyQueue ComputeQueue) h2 in
    let '(_, h4) := dev_call (ResetDevice (device_id_ (runner h3))) h3 in
    (0, set_runner fresh_runner h4)
  else (0, set_runner fresh_runner h1).

(** Modelled from the spec: the allocator pass-throughs of the runner
    (header: [allocate_tensor], [free_tensor]). *)
Definition allocate_tensor (bytes : Z) (h : Host) : Z * Host := mem_alloc bytes h.
Definition free_tensor (dev_ptr : Z) (h : Host) : Host := snd (mem_free dev_ptr h).

(** Modelled from the spec: the copies of the runner (section 4.1;
    header: "0 on success, error code on failure"). *)
Definition copy_to_device (dev_ptr host_ptr bytes : Z) (h : Host) : Z * Host :=
  let '(ok, h1) := dev_call (CopyToDevice dev_ptr (HostBytes host_ptr bytes)) h in
  (if ok then 0 else -1, h1).

Definition copy_from_device (host_ptr dev_ptr bytes : Z) (h : Host) : Z * Host :=
  let '(ok, h1) := dev_call (CopyFromDevice host_ptr dev_ptr bytes) h in
  (if ok then 0 else -1, h1).

(** Calling an operation [n] times in a row on the same session; the
    status is the last call's. *)
Fixpoint repeat_call (n : nat) (op : Host -> Z * Host) (h : Host) : Z * Host :=
  match n with
  | O => (0, h)
  | S O => op h
  | S m => repeat_call m op (snd (op h))
  end.

Definition is_copy_of (func_id : Z) (c : DevCall) : bool :=
  match c with
  | CopyToDevice _ (KernelBytes f _) => f =? func_id
  | _ => false
  end.

(** The primitive calls issued between two states of the same host. *)
Definition calls_since (before after : Host) : list DevCall :=
  drop (length (issued (dev before))) (issued (dev after)).

Definition count_calls (p : DevCall -> bool) (l : list DevCall) : nat :=
  length (List.filter p l).

(** The operations of the header a caller can reach on a session
    besides [ensure_device_set] and [run]. *)
Inductive Op : Type :=
  | OpUpload (func_id : Z) (bin_data : CApi.HostBuf) (bin_size : Z)
  | OpCleanCache
  | OpFinalize
  | OpAllocateTensor (bytes : Z)
  | OpFreeTensor (dev_ptr : Z)
  | OpCopyToDevice (dev_ptr host_ptr bytes : Z)
  | OpCopyFromDevice (host_ptr dev_ptr bytes : Z).

Definition step (o : Op) (h : Host) : Host :=
  match o with
  | OpUpload f b sz => snd (upload_kernel_binary f b sz h)
  | OpCleanCache => snd (clean_cache h)
  | OpFinalize => snd (finalize h)
  | OpAllocateTensor n => snd (allocate_tensor n h)
  | OpFreeTensor p => free_tensor p h
  | OpCopyToDevice d p n => snd (copy_to_device d p n h)
  | OpCopyFromDevice p d n => snd (copy_from_device p d n h)
  end.

Definition steps (ops : list Op) (h : Host) : Host := foldl (fun h o => step o h) h ops.

(** Modelled from the spec: a binaries-loaded epoch ends with a cache
    clear or a full teardown (glossary, section 4.2). *)
Definition ends_epoch (o : Op) : bool :=
  match o with
  | OpCleanCache | OpFinalize => true
  | _ => false
  end.

(** [grows h h' l]: from [h] to [h'] the device served exactly the calls
    [l], and its fault plan is the same. *)
Definition grows (h h' : Host) (l : list DevCall) : Prop :=
  issued (dev h') = issued (dev h) ++ l /\ fails (dev h') = fails (dev h).


(** [frees_of live ps l]: every call of [l] releases an address of [ps]
    that [live] tracks. *)
Definition frees_of (live : gset Z) (ps : list Z) (l : list DevCall) : Prop :=
  Forall (fun c => exists a, c = DevFree a /\ a ∈ ps /\ a ∈ live) l.

(** The session before the device is set: no queue, no binding. *)
Definition session_unset (h : Host) : Prop :=
  device_is_set (runner h) = false /\ func_id_to_addr_ (runner h) = ∅.

(** [bound_to f a h]: the device is set and [f] is bound to [a]. *)
Definition bound_to (f a : Z) (h : Host) : Prop :=
  device_is_set (runner h) = true /\ func_id_to_addr_ (runner h) !! f = Some a.

End Runner.

(* ===================================================================== *)
(** ** Observing sessions and kernel servers                             *)
(* ===================================================================== *)

Module SessionObs.
Import Effects CApi CApiObs.

(** The storages that hold a constructed [Runtime] after a sequence of
    calls, starting from [live]. *)
Fixpoint live_after (live : gset Z) (calls : list Call) : gset Z :=
  match calls with
  | [] => live
  | RuntimeNew r :: rest => live_after (live ∪ {[r]}) rest
  | RuntimeDelete r :: rest => live_after (live ∖ {[r]}) rest
  | _ :: rest => live_after live rest
  end.

Definition is_new_of (r : Z) (c : Call) : bool :=
  match c with
  | RuntimeNew r' => r' =? r
  | _ => false
  end.

Definition constructions (r : Z) (calls : list Call) : nat :=
  length (List.filter (is_new_of r) calls).

(** The five stores of [init_runtime], in program order. *)
Definition host_api_wiring (r : Z) : list Call :=
  [StoreHostApi r slot_device_malloc fn_device_malloc;
   StoreHostApi r slot_device_free fn_device_free;
   StoreHostApi r slot_copy_to_device fn_copy_to_device;
   StoreHostApi r slot_copy_from_device fn_copy_from_device;
   StoreHostApi r slot_upload_kernel_binary fn_upload_kernel_binary_wrapper].

(** The bytes a binary argument denotes: none for a null pointer or a
    size of zero, the first [size] bytes of the buffer otherwise. *)
Definition binary_of (p : HostBuf) (size : Z) : list Byte.byte :=
  match p with
  | Some bytes => firstn (Z.to_nat size) bytes
  | None => []
  end.

Definition is_init_impl (c : Call) : bool :=
  match c with
  | InitRuntimeImpl _ _ => true
  | _ => false
  end.

(** How the first call selected by [p] ended, if there was one. *)
Fixpoint outcome_of (p : Call -> bool) (tr : list (Call * outcome Z))
  : option (outcome Z) :=
  match tr with
  | [] => None
  | (c, o) :: rest => if p c then Some o else outcome_of p rest
  end.

Definition is_run (c : Call) : bool :=
  match c with
  | RunnerRun _ _ _ _ _ _ => true
  | _ => false
  end.

(** Collaborators under which [init_runtime_impl] reports an error. *)
Definition failing_init (c : Call) (served : list Call) : outcome Z * list Call :=
  match c with
  | InitRuntimeImpl _ _ => (Return (-2), served ++ [c])
  | _ => (Return 0, served ++ [c])
  end.

(** Collaborators under which [init_runtime_impl] throws. *)
Definition throwing_init (c : Call) (served : list Call) : outcome Z * list Call :=
  match c with
  | InitRuntimeImpl _ _ => (Throw, served ++ [c])
  | _ => (Return 0, served ++ [c])
  end.

(** Collaborators under which [clean_cache] throws. *)
Definition throwing_cleanup (c : Call) (served : list Call) : outcome Z * list Call :=
  match c with
  | RunnerCleanCache => (Throw, served ++ [c])
  | _ => (Return 0, served ++ [c])
  end.

Definition no_args : InitArgs :=
  {| orch_so_binary := 0; orch_so_size := 0; orch_func_name := 0;
     func_args := 0; func_args_count := 0; arg_types := 0; arg_sizes := 0;
     kernel_func_ids := 0; kernel_binaries := 0; kernel_sizes := 0;
     kernel_count := 0 |}.

End SessionObs.

Module AicpuKernelObs.
Import Effects AicpuKernel.

Definition is_execute (c : Call) : bool :=
  match c with
  | AicpuExecute _ => true
  | _ => false
  end.

Definition is_error_line (c : Call) : bool :=
  match c with
  | DevLog LvlError _ _ => true
  | _ => false
  end.

Definition is_log_line (c : Call) : bool :=
  match c with
  | DevLog _ _ _ => true
  | _ => false
  end.

Definition is_init_log (c : Call) : bool :=
  match c with
  | InitLogSwitch => true
  | _ => false
  end.

(** How the call of [AicpuExecute] ended, if there was one. *)
Fixpoint execute_outcome (tr : list (Call * outcome Z)) : option (outcome Z) :=
  match tr with
  | [] => None
  | (c, o) :: rest => if is_execute c then Some o else execute_outcome rest
  end.

Definition executions (calls : list Call) : nat :=
  length (List.filter is_execute calls).

Definition error_lines (calls : list Call) : nat :=
  length (List.filter is_error_line calls).

(** [AicpuExecute] answering a fixed status. *)
Definition executor (rc : Z) (c : Call) (served : list Call)
  : outcome Z * list Call :=
  match c with
  | AicpuExecute _ => (Return rc, served ++ [c])
  | _ => (Return 0, served ++ [c])
  end.

End AicpuKernelObs.

(* ===================================================================== *)
(** ** Tile kernel helpers ([bgemm/kernels/aic/kernel_gemm_tile.cpp])    *)
(* ===================================================================== *)

Module TileKernel.

(** [int] arithmetic: 32 bits, two's complement. *)
Definition wrap32 (x : Z) : Z := (x + 2 ^ 31) mod 2 ^ 32 - 2 ^ 31.

Definition INT_MAX : Z := 2 ^ 31 - 1.

(** [template <typename T> T CeilAlign(T num_1, T num_2)] at [T = int],
    the instance the kernel uses.  [/] on [int] truncates toward zero:
    [Z.quot]. *)
Definition CeilAlign (num_1 num_2 : Z) : Z :=
  if num_2 =? 0 then 0
  else wrap32 (wrap32 (Z.quot (wrap32 (wrap32 (num_1 + num_2) - 1)) num_2) * num_2).

(** [constexpr int TILE = 64;] *)
Definition TILE : Z := 64.

(** The padded tile dimensions of [gemm_tile_impl]; [C0_SIZE_BYTE] is a
    constant of [pto/common/constants.hpp] and [sizeof(float)] is 4. *)
Definition blockAlign (C0_SIZE_BYTE : Z) : Z := Z.quot C0_SIZE_BYTE 4.
Definition M : Z := CeilAlign TILE 16.
Definition K (C0_SIZE_BYTE : Z) : Z := CeilAlign TILE (blockAlign C0_SIZE_BYTE).
Definition N (C0_SIZE_BYTE : Z) : Z := CeilAlign TILE (blockAlign C0_SIZE_BYTE).

End TileKernel.

(* ===================================================================== *)
(** ** Properties of the simulated tick counter                          *)
(* ===================================================================== *)

Module DeviceTimeFacts.
Import DeviceTime.

Lemma u64_small x : 0 <= x < 2 ^ 64 -> u64 x = x.
Proof. intros H. unfold u64. now apply Z.mod_small. Qed.

(** Splitting into whole seconds and a remainder is exact over [Z]. *)
Lemma split_exact freq n :
  0 <= freq -> 0 <= n ->
  (n / kNsPerSec) * freq + (n mod kNsPerSec) * freq / kNsPerSec
  = n * freq / kNsPerSec.
Proof.
  intros Hf Hn.
  assert (Hk : kNsPerSec <> 0) by (unfold kNsPerSec; lia).
  rewrite (Z.div_mod n kNsPerSec Hk) at 3.
  replace ((kNsPerSec * (n / kNsPerSec) + n mod kNsPerSec) * freq)
    with ((n mod kNsPerSec) * freq + (n / kNsPerSec * freq) * kNsPerSec) by ring.
  rewrite Z.div_add by exact Hk. ring.
Qed.

Lemma ticks_no_wrap freq n :
  0 <= freq -> (kNsPerSec - 1) * freq < 2 ^ 64 ->
  0 <= n -> n * freq / kNsPerSec < 2 ^ 64 ->
  get_sys_cnt_aicpu freq n = n * freq / kNsPerSec.
Proof.
  intros Hf Hr Hn Hfit.
  assert (Hk : 0 < kNsPerSec) by (unfold kNsPerSec; lia).
  pose proof (Z.mod_pos_bound n kNsPerSec Hk) as Hrem.
  pose proof (split_exact freq n Hf Hn) as Hsplit.
  assert (Hq : 0 <= n / kNsPerSec) by (apply Z.div_pos; lia).
  assert (Hrf : 0 <= n mod kNsPerSec * freq < 2 ^ 64) by nia.
  assert (Hrd : 0 <= n mod kNsPerSec * freq / kNsPerSec)
    by (apply Z.div_pos; lia).
  assert (Hsf : 0 <= n / kNsPerSec * freq) by nia.
  unfold get_sys_cnt_aicpu.
  rewrite (u64_small (n mod kNsPerSec * freq)) by exact Hrf.
  rewrite (u64_small (n / kNsPerSec * freq)) by lia.
  rewrite u64_small by lia.
  exact Hsplit.
Qed.

(** C9.  On clock readings [n1 <= n2] the simulated counter returns
    exactly [floor (n * freq / 10^9)] and is therefore non-decreasing;
    no product or sum of the body leaves the 64-bit range.  The
    hypotheses say that the tick frequency and the result fit in 64 bits
    (any [freq <= 10^9] does for every 64-bit reading, see
    [ticks_exact_below_1GHz]). *)
Theorem get_sys_cnt_aicpu_exact_and_nondecreasing (freq n1 n2 : Z) :
  0 < freq -> (kNsPerSec - 1) * freq < 2 ^ 64 ->
  0 <= n1 <= n2 -> n2 * freq / kNsPerSec < 2 ^ 64 ->
  get_sys_cnt_aicpu freq n1 = n1 * freq / 10 ^ 9 /\
  get_sys_cnt_aicpu freq n2 = n2 * freq / 10 ^ 9 /\
  get_sys_cnt_aicpu freq n1 <= get_sys_cnt_aicpu freq n2 /\
  (forall n, 0 <= n <= n2 ->
     0 <= (n / kNsPerSec) * freq < 2 ^ 64 /\
     0 <= (n mod kNsPerSec) * freq < 2 ^ 64 /\
     0 <= (n / kNsPerSec) * freq + (n mod kNsPerSec) * freq / kNsPerSec < 2 ^ 64).
Proof.
  intros Hf Hr Hn Hfit.
  assert (Hk : 0 < kNsPerSec) by (unfold kNsPerSec; lia).
  assert (Hmono : forall n, 0 <= n <= n2 -> n * freq / kNsPerSec < 2 ^ 64).
  { intros n Hn'. eapply Z.le_lt_trans; [|exact Hfit].
    apply Z.div_le_mono; nia. }
  change (10 ^ 9) with kNsPerSec.
  rewrite !ticks_no_wrap by (try apply Hmono; lia).
  split; [reflexivity|]. split; [reflexivity|]. split.
  - apply Z.div_le_mono; nia.
  - intros n Hn'.
    pose proof (Z.mod_pos_bound n kNsPerSec Hk) as Hrem.
    pose proof (split_exact freq n ltac:(lia) ltac:(lia)) as Hsplit.
    pose proof (Hmono n Hn') as Hfit'.
    assert (Hq : 0 <= n / kNsPerSec) by (apply Z.div_pos; lia).
    assert (Hrd : 0 <= n mod kNsPerSec * freq / kNsPerSec)
      by (apply Z.div_pos; nia).
    assert (Hsf : 0 <= n / kNsPerSec * freq) by nia.
    repeat split; try nia; lia.
Qed.

Lemma get_sys_cnt_aicpu_witness :
  get_sys_cnt_aicpu 50000000 1700000000123456789 = 85000000006172839 /\
  get_sys_cnt_aicpu 50000000 1700000000123456789
    <= get_sys_cnt_aicpu 50000000 1700000001123456789.
Proof.
  destruct (get_sys_cnt_aicpu_exact_and_nondecreasing
              50000000 1700000000123456789 1700000001123456789)
    as (H1 & _ & H3 & _); try (unfold kNsPerSec; lia).
  - vm_compute. reflexivity.
  - split; [rewrite H1; reflexivity | exact H3].
Defined.

(** A counter no faster than the nanosecond clock never wraps. *)
Lemma ticks_exact_below_1GHz freq n :
  0 < freq <= 10 ^ 9 -> 0 <= n < 2 ^ 64 ->
  get_sys_cnt_aicpu freq n = n * freq / 10 ^ 9.
Proof.
  intros Hf Hn. change (10 ^ 9) with kNsPerSec.
  apply ticks_no_wrap; try (unfold kNsPerSec in *; lia).
  apply Z.div_lt_upper_bound; unfold kNsPerSec in *; nia.
Qed.

(** The single product the body avoids does wrap on today's clock
    readings: the split is what keeps the value right. *)
Example naive_ticks_wraps :
  naive_ticks 50000000 1700000000123456789 <> 85000000006172839.
Proof. vm_compute. discriminate. Qed.

End DeviceTimeFacts.

(* ===================================================================== *)
(** ** Laws of the program combinators                                   *)
(* ===================================================================== *)

Module EffectsFacts.
Import Effects.

Section Interp.
Context {E W : Type} (h : E -> W -> outcome Z * W).

Lemma interp_bind {A B} (p : Prog E A) (f : A -> Prog E B) w :
  interp h (bind p f) w =
  match interp h p w with
  | (Return a, w') => interp h (f a) w'
  | (Throw, w') => (Throw, w')
  end.
Proof.
  revert w. induction p as [a| |c k IH]; intros w; simpl; try reflexivity.
  destruct (h c w) as [o w']. apply IH.
Qed.

Lemma interp_try_catch {A} (p handler : Prog E A) w :
  interp h (try_catch p handler) w =
  match interp h p w with
  | (Return a, w') => (Return a, w')
  | (Throw, w') => interp h handler w'
  end.
Proof.
  revert w. induction p as [a| |c k IH]; intros w; simpl; try reflexivity.
  destruct (h c w) as [o w']. apply IH.
Qed.

(** A handler that returns a value turns every exception of the body
    into that value: nothing escapes the [try]. *)
Lemma try_catch_ret_never_throws {A} (p : Prog E A) (v : A) w :
  is_throw (fst (interp h (try_catch p (Ret v)) w)) = false.
Proof.
  rewrite interp_try_catch.
  destruct (interp h p w) as [[a|] w']; reflexivity.
Qed.

End Interp.

Section Logged.
Context {E W : Type} (h : E -> W -> outcome Z * W).

(** Logging is transparent: same outcome, same world, and the log only
    grows at its end. *)
Lemma interp_logged {A} (p : Prog E A) w tr :
  interp (logged h) p (w, tr) =
  (fst (interp h p w), (snd (interp h p w), tr ++ trace_of h p w)).
Proof.
  unfold trace_of. revert w tr.
  induction p as [a| |c k IH]; intros w tr; simpl.
  - now rewrite app_nil_r.
  - now rewrite app_nil_r.
  - destruct (h c w) as [o w']. rewrite (IH o w' (tr ++ [(c, o)])).
    rewrite (IH o w' [(c, o)]). simpl. now rewrite <- app_assoc.
Qed.

End Logged.

End EffectsFacts.

(* ===================================================================== *)
(** ** Properties of the host C API and of the kernel entry points       *)
(* ===================================================================== *)

Module CApiTheorems.
Import Effects EffectsFacts CApi CApiObs.

(** Case analysis on the outcome of the next collaborator call. *)
Ltac next_call h :=
  match goal with
  | |- context [h ?c ?w] =>
      is_var w;
      let v := fresh "v" in
      let w' := fresh "w" in
      let Hc := fresh "Hcall" in
      destruct (h c w) as [[v|] w'] eqn:Hc; cbn
  end.

Ltac run_calls h := cbn; repeat next_call h.

Lemma null_is_zero r : r <> NULL -> (r =? NULL) = false.
Proof. intros H. now apply Z.eqb_neq. Qed.

(** Every entry point written as [try { ... } catch (...) { return v; }]
    ends with a value, whatever the collaborators do. *)
Lemma guarded_entry_points_never_throw
    {W} (h : Call -> W -> outcome Z * W) (w : W) :
  (forall r a, is_throw (fst (interp h (init_runtime r a) w)) = false) /\
  (forall sz, is_throw (fst (interp h (device_malloc sz) w)) = false) /\
  (forall p, is_throw (fst (interp h (device_free p) w)) = false) /\
  (forall d p sz, is_throw (fst (interp h (copy_to_device d p sz) w)) = false) /\
  (forall p d sz, is_throw (fst (interp h (copy_from_device p d sz) w)) = false) /\
  (forall f b sz,
      is_throw (fst (interp h (upload_kernel_binary_wrapper f b sz) w)) = false) /\
  (forall r n b d ab az cb cz,
      is_throw (fst (interp h (launch_runtime r n b d ab az cb cz) w)) = false) /\
  (forall r, is_throw (fst (interp h (finalize_runtime r) w)) = false) /\
  (forall d, is_throw (fst (interp h (set_device d) w)) = false) /\
  (forall r e, is_throw (fst (interp h (enable_runtime_profiling r e) w)) = false).
Proof.
  repeat split; intros;
    unfold init_runtime, device_malloc, device_free, copy_to_device,
      copy_from_device, upload_kernel_binary_wrapper, launch_runtime,
      finalize_runtime, set_device, enable_runtime_profiling;
    repeat match goal with
           | |- context [if ?b then _ else _] => destruct b
           end;
    try reflexivity; apply try_catch_ret_never_throws.
Qed.

Ltac settle_throws :=
  unfold no_throw, some_throw in *;
  repeat match goal with
         | H : Forall _ (_ :: _) |- _ => apply Forall_cons in H as [? H]
         | H : Exists _ (_ :: _) |- _ => apply Exists_cons in H as [H|H]
         | H : Exists _ [] |- _ => inversion H
         | H : is_throw _ = _ |- _ => cbn in H; try discriminate H; clear H
         end.

(** C10.  For a non-null session the status of [finalize_runtime] is the
    status [validate_runtime_impl] returned: when no call of the sequence
    throws, the result is that status whatever [clean_cache] and
    [DeviceRunner::finalize] returned; when a call throws, the result is
    [-1]. *)
Theorem finalize_runtime_status_is_validation_status
    {W} (h : Call -> W -> outcome Z * W) (w : W) (r : Z) :
  r <> NULL ->
  let tr := trace_of h (finalize_runtime r) w in
  let res := result_of h (finalize_runtime r) w in
  (no_throw tr ->
   exists rc x c1 c2 y,
     tr = [(ValidateRuntimeImpl r, Return rc); (DeviceRunnerGet, Return x);
           (RunnerCleanCache, Return c1); (RunnerFinalize, Return c2);
           (RuntimeDelete r, Return y)] /\
     res = Return rc) /\
  (some_throw tr -> res = Return (-1)).
Proof.
  intros Hr. unfold trace_of, result_of, finalize_runtime.
  rewrite (null_is_zero r Hr).
  run_calls h; (split; intros Htr; [|try reflexivity]); settle_throws.
  now exists v, v0, v1, v2, v3.
Qed.

Lemma finalize_runtime_status_witness :
  1 <> NULL /\
  let tr := trace_of failing_cleanup (finalize_runtime 1) [] in
  let res := result_of failing_cleanup (finalize_runtime 1) [] in
  (no_throw tr ->
   exists rc x c1 c2 y,
     tr = [(ValidateRuntimeImpl 1, Return rc); (DeviceRunnerGet, Return x);
           (RunnerCleanCache, Return c1); (RunnerFinalize, Return c2);
           (RuntimeDelete 1, Return y)] /\
     res = Return rc) /\
  (some_throw tr -> res = Return (-1)).
Proof.
  assert (H1 : 1 <> NULL) by (unfold NULL; lia).
  split; [exact H1|].
  exact (finalize_runtime_status_is_validation_status failing_cleanup [] 1 H1).
Defined.

(** With cleanup statuses [-5] and [-7] the entry point still answers the
    validation status [0]. *)
Example finalize_runtime_hides_cleanup_failure :
  interp failing_cleanup (finalize_runtime 1) [] =
  (Return 0, finalize_sequence 1).
Proof. reflexivity. Qed.

(** C2.  After a call of [launch_runtime] on a live session, whatever its
    outcome, [finalize_runtime] on that session issues a prefix of
    validation, [clean_cache], [DeviceRunner::finalize], destruction, in
    this order, and the whole sequence when nothing throws; every
    dereference of the session happens while its object is live, the
    object is destroyed at most once, and only after the runner's
    teardown. *)
Theorem finalize_runtime_order_and_session_safety
    {W} (h : Call -> W -> outcome Z * W) (w : W) (live : gset Z)
    (r n b d : Z) (ab : HostBuf) (az : Z) (cb : HostBuf) (cz : Z) :
  r <> NULL -> r ∈ live ->
  let launch := launch_runtime r n b d ab az cb cz in
  let w1 := snd (interp h launch w) in
  let run_calls := map fst (trace_of h launch w) in
  let fin := trace_of h (finalize_runtime r) w1 in
  let fin_calls := map fst fin in
  fin_calls `prefix_of` finalize_sequence r /\
  (no_throw fin -> fin_calls = finalize_sequence r) /\
  destructions r run_calls = 0%nat /\
  lifetime_ok live (run_calls ++ fin_calls) = true /\
  (destructions r (run_calls ++ fin_calls) <= 1)%nat.
Proof.
  intros Hr Hlive.
  unfold trace_of, launch_runtime, finalize_runtime, finalize_sequence,
    destructions, assign_if_present.
  rewrite (null_is_zero r Hr).
  destruct ab as [abytes|], cb as [cbytes|];
    destruct (0 <? az), (0 <? cz);
  run_calls h;
    rewrite ?(bool_decide_eq_true_2 _ Hlive), ?Z.eqb_refl; cbn;
    (split; [|split; [|split; [|split]]]);
    try reflexivity; try lia;
    try (intros Htr; settle_throws; reflexivity);
    try (eexists; reflexivity).
Qed.

Lemma finalize_after_failed_run_witness :
  1 <> NULL /\ 1 ∈ ({[1]} : gset Z) /\
  result_of failing_run (launch_runtime 1 1 1 0 None 0 None 0) [] = Return (-3) /\
  let launch := launch_runtime 1 1 1 0 None 0 None 0 in
  let w1 := snd (interp failing_run launch []) in
  let run_calls := map fst (trace_of failing_run launch []) in
  let fin := trace_of failing_run (finalize_runtime 1) w1 in
  let fin_calls := map fst fin in
  fin_calls `prefix_of` finalize_sequence 1 /\
  (no_throw fin -> fin_calls = finalize_sequence 1) /\
  destructions 1 run_calls = 0%nat /\
  lifetime_ok {[1]} (run_calls ++ fin_calls) = true /\
  (destructions 1 (run_calls ++ fin_calls) <= 1)%nat.
Proof.
  assert (H1 : 1 <> NULL) by (unfold NULL; lia).
  assert (H2 : 1 ∈ ({[1]} : gset Z)) by (apply elem_of_singleton; reflexivity).
  split; [exact H1|]. split; [exact H2|]. split; [reflexivity|].
  exact (finalize_runtime_order_and_session_safety
           failing_run [] {[1]} 1 1 1 0 None 0 None 0 H1 H2).
Defined.

(** C4 (amended).  A null runtime handle makes [init_runtime],
    [launch_runtime] and [finalize_runtime] return [-1] with no call to
    any collaborator; a null device or host pointer does the same for
    [copy_to_device] and [copy_from_device]; a null argument makes the
    three kernel-server entry points return [-1] having issued logging
    calls only (as does a null [runtimeArgs] for
    [DynTileFwkBackendKernelServer]); and null binary pointers given to
    [launch_runtime] are read as empty binaries. *)
Theorem null_guards_return_failure_without_effect
    {W K} (h : Call -> W -> outcome Z * W) (w : W)
    (hk : AicpuKernel.Call -> K -> outcome Z * K) (k : K) :
  (forall a, interp h (init_runtime NULL a) w = (Return (-1), w)) /\
  (forall n b d ab az cb cz,
      interp h (launch_runtime NULL n b d ab az cb cz) w = (Return (-1), w)) /\
  interp h (finalize_runtime NULL) w = (Return (-1), w) /\
  (forall p sz, interp h (copy_to_device NULL p sz) w = (Return (-1), w)) /\
  (forall d sz, interp h (copy_to_device d NULL sz) w = (Return (-1), w)) /\
  (forall d sz, interp h (copy_from_device NULL d sz) w = (Return (-1), w)) /\
  (forall p sz, interp h (copy_from_device p NULL sz) w = (Return (-1), w)) /\
  (forall entry,
      In entry [AicpuKernel.StaticTileFwkBackendKernelServer None;
                AicpuKernel.DynTileFwkBackendKernelServerInit None;
                AicpuKernel.DynTileFwkBackendKernelServer None;
                AicpuKernel.DynTileFwkBackendKernelServer
                  (Some {| AicpuKernel.runtimeArgs := 0 |})] ->
      result_of hk entry k = Return (-1) /\
      forallb AicpuKernel.is_logging (map fst (trace_of hk entry k)) = true) /\
  (forall r n b d az cz,
      launch_runtime r n b d None az None cz =
      launch_runtime r n b d (Some []) 0 (Some []) 0).
Proof.
  repeat split; try reflexivity; intros.
  - unfold copy_to_device. now rewrite orb_true_r.
  - unfold copy_from_device. now rewrite orb_true_r.
  - unfold result_of.
    repeat match goal with H : In _ _ |- _ => destruct H as [<-|H] end;
      try contradiction; cbn;
      repeat match goal with
             | |- context [hk ?c ?w] => destruct (hk c w) as [? ?]; cbn
             end; reflexivity.
  - unfold trace_of.
    repeat match goal with H : In _ _ |- _ => destruct H as [<-|H] end;
      try contradiction; cbn;
      repeat match goal with
             | |- context [hk ?c ?w] => destruct (hk c w) as [? ?]; cbn
             end; reflexivity.
Qed.

(** C4, as first stated, fails: with a live session and null binary
    pointers [launch_runtime] does not return [-1]; it reaches the runner
    and hands it empty binaries. *)
Lemma launch_runtime_null_buffers_not_rejected :
  interp always_ok (launch_runtime 1 1 1 0 None 0 None 0) [] =
    (Return 0, [DeviceRunnerGet; RunnerRun 1 1 0 [] [] 1]) /\
  interp always_ok (launch_runtime 1 1 1 0 None 0 None 0) [] <>
    (Return (-1), []).
Proof. split; [reflexivity | discriminate]. Qed.

(** C5 at its failing input: [record_tensor_pair] has no handler, so an
    exception of [Runtime::record_tensor_pair] leaves the C API
    unconverted. *)
Lemma record_tensor_pair_lets_exception_escape :
  interp always_throw (record_tensor_pair 1 2 3 4) [] =
    (Throw, [RuntimeRecordTensorPair 1 2 3 4]) /\
  (forall (W : Type) (h : Call -> W -> outcome Z * W) (w : W) r hp dp sz,
      r <> NULL ->
      is_throw (fst (h (RuntimeRecordTensorPair r hp dp sz) w)) = true ->
      fst (interp h (record_tensor_pair r hp dp sz) w) = Throw).
Proof.
  split; [reflexivity|].
  intros W h w r hp dp sz Hr Hthrow. unfold record_tensor_pair.
  rewrite (null_is_zero r Hr). cbn.
  destruct (h (RuntimeRecordTensorPair r hp dp sz) w) as [[v|] w']; cbn in *;
    [discriminate Hthrow | reflexivity].
Qed.

End CApiTheorems.

(* ===================================================================== *)
(** ** Properties of the DeviceRunner session                            *)
(* ===================================================================== *)

Module RunnerFacts.
Import Runner.

#[local] Set Warnings "-clear-no-such-hyp".

Lemma grows_refl h : grows h h [].
Proof. split; [now rewrite app_nil_r | reflexivity]. Qed.

Lemma grows_trans h1 h2 h3 l1 l2 :
  grows h1 h2 l1 -> grows h2 h3 l2 -> grows h1 h3 (l1 ++ l2).
Proof.
  intros [H1 F1] [H2 F2]. split.
  - now rewrite H2, H1, app_assoc.
  - now rewrite F2.
Qed.

Lemma grows_calls_since h h' l : grows h h' l -> calls_since h h' = l.
Proof.
  intros [H _]. unfold calls_since. rewrite H.
  now rewrite drop_app_length.
Qed.

Lemma set_mem_alloc_id r m : m = mem_alloc_ r -> set_mem_alloc m r = r.
Proof. intros ->. now destruct r. Qed.

Lemma set_mem_alloc_twice r m m' :
  set_mem_alloc m (set_mem_alloc m' r) = set_mem_alloc m r.
Proof. reflexivity. Qed.

Lemma mem_alloc_set_mem_alloc r m : mem_alloc_ (set_mem_alloc m r) = m.
Proof. reflexivity. Qed.

(** Freeing touches the allocator's set only, and asks the device at most
    for the release of that one tracked address. *)
Lemma mem_free_runner p h :
  runner (snd (mem_free p h)) =
  set_mem_alloc (mem_alloc_ (runner h) ∖ {[p]}) (runner h).
Proof.
  unfold mem_free. case_bool_decide; cbn.
  - reflexivity.
  - symmetry. apply set_mem_alloc_id. set_solver.
Qed.

Lemma mem_free_grows p h :
  grows h (snd (mem_free p h))
    (if bool_decide (p ∈ mem_alloc_ (runner h)) then [DevFree p] else []).
Proof.
  unfold mem_free. case_bool_decide; cbn.
  - split; reflexivity.
  - apply grows_refl.
Qed.

Lemma frees_of_weaken live live' ps ps' l :
  live ⊆ live' -> ps ⊆ ps' -> frees_of live ps l -> frees_of live' ps' l.
Proof.
  intros Hl Hp Hf. unfold frees_of in *.
  eapply Forall_impl; [exact Hf|].
  intros c (a & -> & Ha & Hb). exists a. set_solver.
Qed.

Lemma mem_free_next_addr p h :
  next_addr (dev (snd (mem_free p h))) = next_addr (dev h).
Proof. unfold mem_free. case_bool_decide; reflexivity. Qed.

Lemma mem_free_all_next_addr ps h :
  next_addr (dev (mem_free_all ps h)) = next_addr (dev h).
Proof.
  revert h. induction ps as [|p ps IH]; intros h; cbn [mem_free_all].
  - reflexivity.
  - now rewrite IH, mem_free_next_addr.
Qed.

Lemma mem_free_all_spec ps h :
  runner (mem_free_all ps h) =
    set_mem_alloc (mem_alloc_ (runner h) ∖ list_to_set ps) (runner h) /\
  exists l, grows h (mem_free_all ps h) l /\
            frees_of (mem_alloc_ (runner h)) ps l /\
            (forall p, p ∈ ps -> p ∈ mem_alloc_ (runner h) -> DevFree p ∈ l).
Proof.
  revert h. induction ps as [|p ps IH]; intros h; cbn [mem_free_all].
  - split.
    + symmetry. apply set_mem_alloc_id. set_solver.
    + exists []. split; [apply grows_refl|]. split; [constructor|].
      intros p Hp. inversion Hp.
  - destruct (IH (snd (mem_free p h))) as (Hr & l & Hg & Hf & Hall).
    rewrite mem_free_runner in Hr, Hf, Hall.
    rewrite set_mem_alloc_twice in Hr.
    rewrite mem_alloc_set_mem_alloc in Hr, Hf, Hall.
    split.
    + rewrite Hr. cbn [list_to_set foldr]. f_equal. set_solver.
    + eexists. split; [|split].
      * eapply grows_trans; [apply mem_free_grows | exact Hg].
      * unfold frees_of. apply Forall_app. split.
        -- case_bool_decide; constructor; [|constructor].
           exists p. set_solver.
        -- eapply frees_of_weaken; [| |exact Hf]; set_solver.
      * intros q Hq Hlive. apply elem_of_app.
        destruct (decide (q = p)) as [->|Hne].
        -- left. rewrite bool_decide_eq_true_2 by exact Hlive. set_solver.
        -- right. apply Hall; set_solver.
Qed.

(** C7.  [clean_cache] empties the function-id map and clears the
    binaries-loaded flag; it releases every tracked address of binary
    memory and asks the device for nothing else, after which no binary
    address is tracked; the device id, both queues and every other
    tracked allocation are as before. *)
Theorem clean_cache_frame (h : Host) :
  let h' := snd (clean_cache h) in
  let r := runner h in
  let r' := runner h' in
  func_id_to_addr_ r' = ∅ /\
  binaries_loaded_ r' = false /\
  (forall a, a ∈ kernel_memory r -> a ∈ mem_alloc_ r ->
             DevFree a ∈ calls_since h h') /\
  (forall a, a ∈ kernel_memory r -> a ∉ mem_alloc_ r') /\
  frees_of (mem_alloc_ r) (kernel_memory r) (calls_since h h') /\
  device_id_ r' = device_id_ r /\
  stream_aicpu_ r' = stream_aicpu_ r /\
  stream_aicore_ r' = stream_aicore_ r /\
  (forall a, a ∉ kernel_memory r -> a ∈ mem_alloc_ r' <-> a ∈ mem_alloc_ r).
Proof.
  cbn zeta. unfold clean_cache. cbn [snd runner set_runner].
  destruct (mem_free_all_spec (kernel_memory (runner h)) h)
    as (Hr & l & Hg & Hf & Hall).
  assert (Hcalls :
    calls_since h
      (set_runner
         (set_func_id_to_addr ∅
            (set_binaries 0 0 false
               (runner (mem_free_all (kernel_memory (runner h)) h))))
         (mem_free_all (kernel_memory (runner h)) h)) = l).
  { unfold calls_since. cbn. now apply grows_calls_since. }
  rewrite Hcalls, Hr. cbn.
  repeat split; try reflexivity; try assumption; set_solver.
Qed.

(** A session with the control-core payload loaded, one kernel bound and
    one tensor allocated: the cache clear releases the kernel (address
    [116]), the payload ([1]) and its argument block ([4]), and keeps the
    tensor ([118]). *)
Example clean_cache_keeps_tensors :
  let h0 := snd (ensure_device_set 0 (fresh_host no_faults)) in
  let h1 := snd (ensure_binaries_loaded [Byte.x7f; Byte.x45; Byte.x4c] h0) in
  let h2 := snd (upload_kernel_binary 7 (Some [Byte.x01; Byte.x02]) 2 h1) in
  let h3 := snd (allocate_tensor 64 h2) in
  let h4 := snd (clean_cache h3) in
  elements (mem_alloc_ (runner h4)) = [118] /\
  calls_since h3 h4 = [DevFree 116; DevFree 1; DevFree 4] /\
  stream_aicpu_ (runner h4) = stream_aicpu_ (runner h3).
Proof. repeat split. Qed.

(* --------------------------------------------------------------------- *)
(** *** ensure_device_set                                                *)
(* --------------------------------------------------------------------- *)

Lemma ensure_device_set_when_set d h :
  device_is_set (runner h) = true -> ensure_device_set d h = (0, h).
Proof. intros H. unfold ensure_device_set. now rewrite H. Qed.

(** A successful first call on an unset device: the three primitive
    calls, in order, and the session fields they establish. *)
Lemma ensure_device_set_first d h :
  device_is_set (runner h) = false ->
  fst (ensure_device_set d h) = 0 ->
  let h' := snd (ensure_device_set d h) in
  grows h h' [SetDevice d; CreateQueue CtrlQueue; CreateQueue ComputeQueue] /\
  runner h' = set_device_state d (queue_handle CtrlQueue)
                (queue_handle ComputeQueue) (runner h) /\
  next_addr (dev h') = next_addr (dev h).
Proof.
  intros Hunset. unfold ensure_device_set, dev_call. rewrite Hunset. cbn.
  destruct (fails (dev h) (length (issued (dev h)))); cbn; [discriminate|].
  destruct (fails (dev h) (length (issued (dev h) ++ [SetDevice d]))); cbn;
    [discriminate|].
  destruct (fails (dev h)
              (length ((issued (dev h) ++ [SetDevice d]) ++ [CreateQueue CtrlQueue])));
    cbn; [discriminate|].
  intros _. repeat split. now rewrite <- !app_assoc.
Qed.

Lemma ensure_device_set_success_sets d h :
  fst (ensure_device_set d h) = 0 ->
  device_is_set (runner (snd (ensure_device_set d h))) = true.
Proof.
  intros Hok. destruct (device_is_set (runner h)) eqn:Hset.
  - now rewrite ensure_device_set_when_set.
  - destruct (ensure_device_set_first d h Hset Hok) as (_ & Hr & _).
    now rewrite Hr.
Qed.

Lemma repeat_call_fixed (op : Host -> Z * Host) h n :
  (1 <= n)%nat -> op h = (0, h) -> repeat_call n op h = (0, h).
Proof.
  intros Hn Hfix. induction n as [|n IH]; [lia|].
  destruct n as [|n]; [exact Hfix|].
  change (repeat_call (S (S n)) op h) with (repeat_call (S n) op (snd (op h))).
  rewrite Hfix. apply IH. lia.
Qed.

(** C6.  Once a call of [ensure_device_set] has succeeded, any number of
    calls has the effect of that one call: same status, same session,
    same calls served by the device.  Starting from an unset device these
    calls are one device selection followed by the creation of the two
    queues; a call on a set device changes nothing. *)
Theorem ensure_device_set_idempotent (device_id : Z) (h : Host) (n : nat) :
  (1 <= n)%nat ->
  fst (ensure_device_set device_id h) = 0 ->
  let once := ensure_device_set device_id h in
  repeat_call n (ensure_device_set device_id) h = once /\
  ensure_device_set device_id (snd once) = (0, snd once) /\
  (device_is_set (runner h) = false ->
   calls_since h (snd (repeat_call n (ensure_device_set device_id) h)) =
     [SetDevice device_id; CreateQueue CtrlQueue; CreateQueue ComputeQueue]) /\
  (device_is_set (runner h) = true ->
   calls_since h (snd (repeat_call n (ensure_device_set device_id) h)) = []).
Proof.
  intros Hn Hok once.
  assert (Hfix : ensure_device_set device_id (snd once) = (0, snd once)).
  { apply ensure_device_set_when_set, ensure_device_set_success_sets, Hok. }
  assert (Hrep : repeat_call n (ensure_device_set device_id) h = once).
  { destruct n as [|[|n]]; [lia|reflexivity|].
    change (repeat_call (S (S n)) (ensure_device_set device_id) h)
      with (repeat_call (S n) (ensure_device_set device_id) (snd once)).
    rewrite repeat_call_fixed by (lia || exact Hfix).
    subst once. destruct (ensure_device_set device_id h) as [st h'].
    cbn in *. now subst st. }
  split; [exact Hrep|]. split; [exact Hfix|]. rewrite Hrep. split.
  - intros Hunset. apply grows_calls_since.
    now destruct (ensure_device_set_first device_id h Hunset Hok) as (Hg & _).
  - intros Hset. subst once. rewrite ensure_device_set_when_set by exact Hset.
    apply grows_calls_since, grows_refl.
Qed.

Lemma ensure_device_set_idempotent_witness :
  let h := fresh_host no_faults in
  let once := ensure_device_set 3 h in
  repeat_call 5 (ensure_device_set 3) h = once /\
  ensure_device_set 3 (snd once) = (0, snd once) /\
  (device_is_set (runner h) = false ->
   calls_since h (snd (repeat_call 5 (ensure_device_set 3) h)) =
     [SetDevice 3; CreateQueue CtrlQueue; CreateQueue ComputeQueue]) /\
  (device_is_set (runner h) = true ->
   calls_since h (snd (repeat_call 5 (ensure_device_set 3) h)) = []).
Proof.
  apply (ensure_device_set_idempotent 3 (fresh_host no_faults) 5).
  - lia.
  - reflexivity.
Defined.

(** A failed call leaves the device unset, so the next call selects the
    device again: idempotence is a property of successful calls. *)
Example ensure_device_set_retry_after_failure :
  let h := fresh_host (fun k => Nat.eqb k 0) in
  fst (ensure_device_set 3 h) = -1 /\
  calls_since h (snd (repeat_call 2 (ensure_device_set 3) h)) =
    [SetDevice 3; SetDevice 3; CreateQueue CtrlQueue; CreateQueue ComputeQueue].
Proof. split; reflexivity. Qed.

(* --------------------------------------------------------------------- *)
(** *** upload_kernel_binary                                             *)
(* --------------------------------------------------------------------- *)

Lemma upload_unset f b sz h :
  device_is_set (runner h) = false -> upload_kernel_binary f b sz h = (0, h).
Proof. intros H. unfold upload_kernel_binary. now rewrite H. Qed.

Lemma upload_bound f b sz h a :
  device_is_set (runner h) = true ->
  func_id_to_addr_ (runner h) !! f = Some a ->
  upload_kernel_binary f b sz h = (a, h).
Proof. intros Hs Hb. unfold upload_kernel_binary. now rewrite Hs, Hb. Qed.

(** What an allocation does to the session and to the device. *)
Lemma mem_alloc_cases bytes h :
  let a := fst (mem_alloc bytes h) in
  let h' := snd (mem_alloc bytes h) in
  (a = 0 /\ runner h' = runner h /\
   (grows h h' [] \/ grows h h' [DevMalloc bytes])) \/
  (a = Z.pos (next_addr (dev h)) /\ 0 < bytes /\
   runner h' = set_mem_alloc ({[a]} ∪ mem_alloc_ (runner h)) (runner h) /\
   grows h h' [DevMalloc bytes]).
Proof.
  unfold mem_alloc, dev_call. destruct (bytes <=? 0) eqn:Hb; cbn.
  - left. repeat split. left. apply grows_refl.
  - destruct (fails (dev h) (length (issued (dev h)))); cbn.
    + left. repeat split. right. split; reflexivity.
    + right. repeat split. lia.
Qed.


Lemma step_keeps_unset o h : session_unset h -> session_unset (step o h).
Proof.
  intros [Hs Hm]. destruct o as [f b sz| | |n|p|d p n|p d n]; cbn [step];
    try (now split).
  - rewrite upload_unset by exact Hs. now split.
  - unfold clean_cache. cbn [snd]. split; [|reflexivity].
    unfold device_is_set in *. cbn.
    destruct (mem_free_all_spec (kernel_memory (runner h)) h) as (-> & _).
    exact Hs.
  - unfold finalize.
    destruct (device_is_set (runner (mem_free_all _ h))); cbn; now split.
  - unfold allocate_tensor, session_unset.
    destruct (mem_alloc_cases n h) as [(_ & -> & _)|(_ & _ & -> & _)]; now split.
  - unfold free_tensor, session_unset. rewrite mem_free_runner. now split.
Qed.

Lemma steps_keep_unset ops h : session_unset h -> session_unset (steps ops h).
Proof.
  revert h. induction ops as [|o ops IH]; intros h Hu; [exact Hu|].
  apply IH, step_keeps_unset, Hu.
Qed.

(** C8.  While [ensure_device_set] has not executed, whatever else was
    called on the session, [upload_kernel_binary] returns the failure
    value [0]; it asks nothing of the device and binds nothing, and [0]
    is the address of no allocation. *)
Theorem upload_before_device_set_fails
    (plan : nat -> bool) (ops : list Op)
    (func_id : Z) (bin_data : CApi.HostBuf) (bin_size : Z) :
  let h := steps ops (fresh_host plan) in
  upload_kernel_binary func_id bin_data bin_size h = (0, h) /\
  func_id_to_addr_ (runner h) !! func_id = None /\
  (forall n h0, fst (mem_alloc n h0) <> 0 -> 0 < fst (mem_alloc n h0)) /\
  (forall h0 : Host,
      device_is_set (runner h0) = false ->
      upload_kernel_binary func_id bin_data bin_size h0 = (0, h0)).
Proof.
  cbn zeta.
  assert (Hu : session_unset (steps ops (fresh_host plan)))
    by (apply steps_keep_unset; now split).
  destruct Hu as [Hs Hm]. repeat split.
  - now apply upload_unset.
  - now rewrite Hm.
  - intros n h0 Hnz.
    destruct (mem_alloc_cases n h0) as [(H0 & _)|(-> & _)]; [contradiction|lia].
  - intros h0. apply upload_unset.
Qed.

Lemma count_calls_app p l1 l2 :
  count_calls p (l1 ++ l2) = (count_calls p l1 + count_calls p l2)%nat.
Proof. unfold count_calls. now rewrite List.filter_app, length_app. Qed.


(** The first successful upload of a function id: one allocation, one
    copy of the supplied bytes, and the binding. *)
Lemma upload_first_success f b sz h :
  func_id_to_addr_ (runner h) !! f = None ->
  fst (upload_kernel_binary f b sz h) <> 0 ->
  let a := fst (upload_kernel_binary f b sz h) in
  let h' := snd (upload_kernel_binary f b sz h) in
  bound_to f a h' /\
  exists bytes, kernel_bytes b sz = Some bytes /\
                grows h h' [DevMalloc sz; CopyToDevice a (KernelBytes f bytes)].
Proof.
  intros Hnone. unfold upload_kernel_binary. rewrite Hnone.
  destruct (device_is_set (runner h)) eqn:Hs; cbn; [|congruence].
  destruct (kernel_bytes b sz) as [bytes|]; cbn; [|congruence].
  pose proof (mem_alloc_cases sz h) as Hc. cbn zeta in Hc.
  destruct (mem_alloc sz h) as [addr h1]. cbn [fst snd] in Hc.
  destruct Hc as [(-> & Hr & Hg)|(-> & Hpos & Hr & Hg)]; cbn; [congruence|].
  unfold dev_call.
  destruct (fails (dev h1) (length (issued (dev h1)))); cbn.
  - congruence.
  - intros _. split.
    + split.
      * rewrite Hr. exact Hs.
      * apply lookup_insert_eq.
    + exists bytes. split; [reflexivity|].
      destruct Hg as [Hi Hf]. split; cbn; [|exact Hf].
      rewrite Hi. now rewrite <- app_assoc.
Qed.

(** An upload, of any function id, keeps an existing binding and copies
    nothing for the bound id. *)
Lemma upload_keeps_binding f a g b sz h :
  bound_to f a h ->
  let h' := snd (upload_kernel_binary g b sz h) in
  bound_to f a h' /\
  exists l, grows h h' l /\ count_calls (is_copy_of f) l = 0%nat.
Proof.
  intros [Hs Hb]. cbn zeta. unfold bound_to, upload_kernel_binary. rewrite Hs. cbn.
  destruct (func_id_to_addr_ (runner h) !! g) as [ag|] eqn:Hg; cbn.
  { split; [now split|]. exists []. split; [apply grows_refl|reflexivity]. }
  assert (Hne : g <> f) by congruence.
  destruct (kernel_bytes b sz) as [bytes|]; cbn.
  2:{ split; [now split|]. exists []. split; [apply grows_refl|reflexivity]. }
  pose proof (mem_alloc_cases sz h) as Hc. cbn zeta in Hc.
  destruct (mem_alloc sz h) as [addr h1]. cbn [fst snd] in Hc.
  destruct Hc as [(-> & Hr & Hgr)|(-> & Hpos & Hr & Hgr)]; cbn.
  - split; [split; now rewrite Hr|].
    destruct Hgr as [Hgr|Hgr]; eexists; (split; [exact Hgr|reflexivity]).
  - set (a1 := Z.pos (next_addr (dev h))) in *.
    set (c := CopyToDevice a1 (KernelBytes g bytes)).
    assert (Hc0 : count_calls (is_copy_of f) [c] = 0%nat).
    { unfold count_calls, c. cbn. now rewrite (proj2 (Z.eqb_neq g f) Hne). }
    assert (Hgc : forall r2,
               grows h1 {| runner := r2;
                           dev := {| issued := issued (dev h1) ++ [c];
                                     fails := fails (dev h1);
                                     next_addr := next_addr (dev h1) |} |} [c])
      by (intros r2; split; reflexivity).
    destruct (fails (dev h1) (length (issued (dev h1)))); cbn.
    + rewrite mem_free_runner. cbn. rewrite Hr. split; [now split|].
      eexists. split.
      * eapply grows_trans; [exact Hgr|].
        eapply grows_trans; [apply Hgc|apply mem_free_grows].
      * rewrite !count_calls_app, Hc0. case_bool_decide; reflexivity.
    + rewrite Hr. cbn. split.
      * split; [exact Hs|]. now rewrite lookup_insert_ne.
      * eexists. split; [eapply grows_trans; [exact Hgr|apply Hgc]|].
        now rewrite count_calls_app, Hc0.
Qed.

(** So does every operation that does not end the epoch. *)
Lemma step_keeps_binding f a o h :
  ends_epoch o = false ->
  bound_to f a h ->
  bound_to f a (step o h) /\
  exists l, grows h (step o h) l /\ count_calls (is_copy_of f) l = 0%nat.
Proof.
  intros He Hb.
  destruct o as [g b sz| | |n|p|d p n|p d n]; cbn [step]; try discriminate He.
  - apply upload_keeps_binding, Hb.
  - unfold allocate_tensor, bound_to in *.
    destruct (mem_alloc_cases n h) as [(_ & -> & Hg)|(_ & _ & -> & Hg)].
    + split; [exact Hb|]. destruct Hg as [Hg|Hg]; eexists; (split; [exact Hg|reflexivity]).
    + split; [exact Hb|]. eexists. split; [exact Hg|reflexivity].
  - unfold free_tensor, bound_to in *. rewrite mem_free_runner.
    split; [exact Hb|]. eexists. split; [apply mem_free_grows|].
    case_bool_decide; reflexivity.
  - split; [exact Hb|]. eexists. split; [split; reflexivity|reflexivity].
  - split; [exact Hb|]. eexists. split; [split; reflexivity|reflexivity].
Qed.

Lemma steps_keep_binding f a ops h :
  Forall (fun o => ends_epoch o = false) ops ->
  bound_to f a h ->
  bound_to f a (steps ops h) /\
  exists l, grows h (steps ops h) l /\ count_calls (is_copy_of f) l = 0%nat.
Proof.
  intros Hops. revert h.
  induction Hops as [|o ops Ho _ IH]; intros h Hb.
  - split; [exact Hb|]. exists []. split; [apply grows_refl|reflexivity].
  - destruct (step_keeps_binding f a o h Ho Hb) as (Hb1 & l1 & Hg1 & Hc1).
    destruct (IH _ Hb1) as (Hb2 & l2 & Hg2 & Hc2).
    split; [exact Hb2|]. exists (l1 ++ l2). split.
    + eapply grows_trans; eassumption.
    + now rewrite count_calls_app, Hc1, Hc2.
Qed.

(** C3.  Within one epoch (no cache clear and no teardown in between), if
    an upload of [func_id] succeeds, a later upload of the same
    [func_id] returns the same address and changes nothing, whatever
    bytes it is given and whatever the session did in between; over the
    whole span the device copied a binary for [func_id] exactly once
    when the first of the two calls was the first upload of that id, and
    not at all when the id was already bound. *)
Theorem upload_kernel_binary_cached
    (func_id : Z) (b1 : CApi.HostBuf) (sz1 : Z) (b2 : CApi.HostBuf) (sz2 : Z)
    (between : list Op) (h : Host) :
  Forall (fun o => ends_epoch o = false) between ->
  fst (upload_kernel_binary func_id b1 sz1 h) <> 0 ->
  let a1 := fst (upload_kernel_binary func_id b1 sz1 h) in
  let h1 := snd (upload_kernel_binary func_id b1 sz1 h) in
  let h2 := steps between h1 in
  let a2 := fst (upload_kernel_binary func_id b2 sz2 h2) in
  let h3 := snd (upload_kernel_binary func_id b2 sz2 h2) in
  a2 = a1 /\
  h3 = h2 /\
  count_calls (is_copy_of func_id) (calls_since h h3) =
    match func_id_to_addr_ (runner h) !! func_id with
    | None => 1%nat
    | Some _ => 0%nat
    end.
Proof.
  intros Hepoch Hok. cbn zeta.
  assert (Hfirst :
    exists l, bound_to func_id (fst (upload_kernel_binary func_id b1 sz1 h))
                (snd (upload_kernel_binary func_id b1 sz1 h)) /\
              grows h (snd (upload_kernel_binary func_id b1 sz1 h)) l /\
              count_calls (is_copy_of func_id) l =
              match func_id_to_addr_ (runner h) !! func_id with
              | None => 1%nat
              | Some _ => 0%nat
              end).
  { destruct (func_id_to_addr_ (runner h) !! func_id) as [a0|] eqn:Hb.
    - destruct (device_is_set (runner h)) eqn:Hs.
      + rewrite (upload_bound _ _ _ _ _ Hs Hb). exists [].
        split; [now split|]. split; [apply grows_refl|reflexivity].
      + rewrite (upload_unset _ _ _ _ Hs) in Hok. now contradiction Hok.
    - destruct (upload_first_success _ _ _ _ Hb Hok) as (Hbd & bytes & _ & Hg).
      eexists. split; [exact Hbd|]. split; [exact Hg|].
      unfold count_calls. cbn. now rewrite Z.eqb_refl. }
  destruct Hfirst as (l1 & Hb1 & Hg1 & Hc1).
  destruct (steps_keep_binding _ _ between _ Hepoch Hb1) as (Hb2 & l2 & Hg2 & Hc2).
  destruct Hb2 as [Hs2 Hm2].
  rewrite (upload_bound _ _ _ _ _ Hs2 Hm2). cbn [fst snd].
  split; [reflexivity|]. split; [reflexivity|].
  rewrite (grows_calls_since _ _ _ (grows_trans _ _ _ _ _ Hg1 Hg2)).
  now rewrite count_calls_app, Hc1, Hc2, Nat.add_0_r.
Qed.

Lemma upload_kernel_binary_cached_witness :
  let h := snd (ensure_device_set 0 (fresh_host no_faults)) in
  let between := [OpUpload 8 (Some [Byte.x03]) 1; OpAllocateTensor 64;
                  OpUpload 7 None 0; OpCopyToDevice 4 4096 64] in
  let a1 := fst (upload_kernel_binary 7 (Some [Byte.x01; Byte.x02]) 2 h) in
  let h1 := snd (upload_kernel_binary 7 (Some [Byte.x01; Byte.x02]) 2 h) in
  let h2 := steps between h1 in
  let a2 := fst (upload_kernel_binary 7 (Some [Byte.xff]) 1 h2) in
  let h3 := snd (upload_kernel_binary 7 (Some [Byte.xff]) 1 h2) in
  a2 = a1 /\
  h3 = h2 /\
  count_calls (is_copy_of 7) (calls_since h h3) =
    match func_id_to_addr_ (runner h) !! 7 with
    | None => 1%nat
    | Some _ => 0%nat
    end.
Proof.
  apply (upload_kernel_binary_cached 7 (Some [Byte.x01; Byte.x02]) 2
           (Some [Byte.xff]) 1
           [OpUpload 8 (Some [Byte.x03]) 1; OpAllocateTensor 64;
            OpUpload 7 None 0; OpCopyToDevice 4 4096 64]
           (snd (ensure_device_set 0 (fresh_host no_faults)))).
  - repeat constructor.
  - vm_compute. discriminate.
Defined.

(** The calls the device served in that scenario: the second binary for
    function 7 was never copied. *)
Example upload_kernel_binary_stale_bytes :
  let h := snd (ensure_device_set 0 (fresh_host no_faults)) in
  let h1 := snd (upload_kernel_binary 7 (Some [Byte.x01; Byte.x02]) 2 h) in
  upload_kernel_binary 7 (Some [Byte.xff]) 1 h1 = (1, h1) /\
  calls_since h h1 = [DevMalloc 2; CopyToDevice 1 (KernelBytes 7 [Byte.x01; Byte.x02])].
Proof. split; reflexivity. Qed.

(** A cache clear ends the epoch: the next upload of a function id seen
    before copies again, here to another address. *)
Example upload_after_clean_cache_copies_again :
  let h := snd (ensure_device_set 0 (fresh_host no_faults)) in
  let h1 := snd (upload_kernel_binary 7 (Some [Byte.x01; Byte.x02]) 2 h) in
  let h2 := snd (clean_cache h1) in
  let h3 := snd (upload_kernel_binary 7 (Some [Byte.xff]) 1 h2) in
  fst (upload_kernel_binary 7 (Some [Byte.x01; Byte.x02]) 2 h) = 1 /\
  fst (upload_kernel_binary 7 (Some [Byte.xff]) 1 h2) = 3 /\
  calls_since h1 h3 =
    [DevFree 1; DevMalloc 1; CopyToDevice 3 (KernelBytes 7 [Byte.xff])].
Proof. repeat split. Qed.

(** When the first upload fails nothing is bound, and a later upload
    copies: the caching statement is about successful uploads. *)
Example upload_kernel_binary_after_failed_upload :
  let h := snd (ensure_device_set 0 (fresh_host (fun k => Nat.eqb k 3))) in
  let h1 := snd (upload_kernel_binary 7 (Some [Byte.x01]) 1 h) in
  fst (upload_kernel_binary 7 (Some [Byte.x01]) 1 h) = 0 /\
  fst (upload_kernel_binary 7 (Some [Byte.x01]) 1 h1) = 1.
Proof. split; reflexivity. Qed.

End RunnerFacts.

(* ===================================================================== *)
(** ** Further properties of the host C API                              *)
(* ===================================================================== *)

Module CApiExtras.
Import Effects EffectsFacts CApi CApiObs SessionObs CApiTheorems.

#[local] Set Warnings "-clear-no-such-hyp".

Ltac run_all h :=
  cbn;
  repeat (next_call h ||
          match goal with
          | |- context [if negb (?x =? 0) then _ else _] =>
              destruct (x =? 0) eqn:?; cbn
          end).

Ltac open_entry :=
  unfold trace_of, result_of, init_runtime, device_malloc, device_free,
    copy_to_device, copy_from_device, upload_kernel_binary_wrapper,
    launch_runtime, finalize_runtime, enable_runtime_profiling,
    record_tensor_pair, assign_if_present.

(** X1.  When a collaborator throws, a guarded entry point answers the
    failure value of its return type: [-1] for the [int] functions,
    [NULL] for [device_malloc], [0] for [upload_kernel_binary_wrapper],
    and a plain return for [device_free]. *)
Theorem exception_becomes_failure_value
    {W} (h : Call -> W -> outcome Z * W) (w : W) :
  (forall r a, some_throw (trace_of h (init_runtime r a) w) ->
               result_of h (init_runtime r a) w = Return (-1)) /\
  (forall sz, some_throw (trace_of h (device_malloc sz) w) ->
              result_of h (device_malloc sz) w = Return NULL) /\
  (forall p, some_throw (trace_of h (device_free p) w) ->
             result_of h (device_free p) w = Return tt) /\
  (forall d p sz, some_throw (trace_of h (copy_to_device d p sz) w) ->
                  result_of h (copy_to_device d p sz) w = Return (-1)) /\
  (forall p d sz, some_throw (trace_of h (copy_from_device p d sz) w) ->
                  result_of h (copy_from_device p d sz) w = Return (-1)) /\
  (forall f b sz, some_throw (trace_of h (upload_kernel_binary_wrapper f b sz) w) ->
                  result_of h (upload_kernel_binary_wrapper f b sz) w = Return 0) /\
  (forall r n b d ab az cb cz,
      some_throw (trace_of h (launch_runtime r n b d ab az cb cz) w) ->
      result_of h (launch_runtime r n b d ab az cb cz) w = Return (-1)) /\
  (forall r e, some_throw (trace_of h (enable_runtime_profiling r e) w) ->
               result_of h (enable_runtime_profiling r e) w = Return (-1)).
Proof.
  repeat split; intros *; open_entry;
    repeat match goal with
           | |- context [if ?x =? NULL then _ else _] => destruct (x =? NULL)
           | |- context [if (?x =? NULL) || ?y then _ else _] =>
               destruct (x =? NULL); cbn [orb]
           | |- context [match ?b with Some _ => _ | None => _ end] =>
               is_var b; destruct b
           | |- context [if 0 <? ?z then _ else _] => destruct (0 <? z)
           end;
    run_all h; intros Htr; settle_throws; reflexivity.
Qed.

(** X2.  When nothing throws, the four thin wrappers ask the runner
    exactly once, with their arguments unchanged, after obtaining the
    singleton, and return what the runner returned. *)
Theorem wrappers_pass_status_through
    {W} (h : Call -> W -> outcome Z * W) (w : W) :
  (forall sz, no_throw (trace_of h (device_malloc sz) w) ->
     exists x p,
       trace_of h (device_malloc sz) w =
         [(DeviceRunnerGet, Return x); (AllocateTensor sz, Return p)] /\
       result_of h (device_malloc sz) w = Return p) /\
  (forall d p sz, d <> NULL -> p <> NULL ->
     no_throw (trace_of h (copy_to_device d p sz) w) ->
     exists x st,
       trace_of h (copy_to_device d p sz) w =
         [(DeviceRunnerGet, Return x); (RunnerCopyToDevice d p sz, Return st)] /\
       result_of h (copy_to_device d p sz) w = Return st) /\
  (forall p d sz, p <> NULL -> d <> NULL ->
     no_throw (trace_of h (copy_from_device p d sz) w) ->
     exists x st,
       trace_of h (copy_from_device p d sz) w =
         [(DeviceRunnerGet, Return x); (RunnerCopyFromDevice p d sz, Return st)] /\
       result_of h (copy_from_device p d sz) w = Return st) /\
  (forall f b sz, no_throw (trace_of h (upload_kernel_binary_wrapper f b sz) w) ->
     exists x a,
       trace_of h (upload_kernel_binary_wrapper f b sz) w =
         [(DeviceRunnerGet, Return x);
          (RunnerUploadKernelBinary f b sz, Return a)] /\
       result_of h (upload_kernel_binary_wrapper f b sz) w = Return a).
Proof.
  split; [|split; [|split]]; intros *.
  - open_entry. run_all h; intros Htr; settle_throws. now eexists _, _.
  - intros Hd Hp. open_entry.
    rewrite (null_is_zero d Hd), (null_is_zero p Hp).
    run_all h; intros Htr; settle_throws. now eexists _, _.
  - intros Hp Hd. open_entry.
    rewrite (null_is_zero d Hd), (null_is_zero p Hp).
    run_all h; intros Htr; settle_throws. now eexists _, _.
  - open_entry. run_all h; intros Htr; settle_throws. now eexists _, _.
Qed.

(** X3.  [init_runtime] on a non-null handle keeps the lifetime
    discipline whatever happens.  Without an exception its result is the
    status of [init_runtime_impl], and the [Runtime] stays constructed
    exactly when that status is [0]: on any other status it is destroyed
    once.  When [init_runtime_impl] throws the result is [-1] although
    the [Runtime] is left constructed: the destructor is not run. *)
Theorem init_runtime_session_lifetime
    {W} (h : Call -> W -> outcome Z * W) (w : W) (live : gset Z) (r : Z)
    (a : InitArgs) :
  r <> NULL ->
  let tr := trace_of h (init_runtime r a) w in
  let res := result_of h (init_runtime r a) w in
  let calls := map fst tr in
  lifetime_ok live calls = true /\
  (no_throw tr ->
   exists rc, outcome_of is_init_impl tr = Some (Return rc) /\
              res = Return rc /\
              (r ∈ live_after live calls <-> rc = 0) /\
              destructions r calls = if rc =? 0 then 0%nat else 1%nat) /\
  (outcome_of is_init_impl tr = Some Throw ->
   res = Return (-1) /\ r ∈ live_after live calls /\
   destructions r calls = 0%nat).
Proof.
  intros Hr. open_entry. unfold destructions. rewrite (null_is_zero r Hr).
  assert (Hin : bool_decide (r ∈ live ∪ {[r]}) = true)
    by (apply bool_decide_eq_true_2; set_solver).
  run_all h; rewrite ?Hin, ?Z.eqb_refl; cbn;
    (split; [reflexivity|]); split.
  all: try solve [intros Htr; settle_throws].
  all: try solve [intros Hth; discriminate Hth].
  all: try solve [intros _; split; [reflexivity|split; [set_solver|reflexivity]]].
  all: intros _; eexists; split; [reflexivity|]; split; [reflexivity|];
    match goal with Hq : (_ =? 0) = _ |- _ => rewrite Hq end;
    (split; [|reflexivity]);
    match goal with
    | Hq : (_ =? 0) = true |- _ => apply Z.eqb_eq in Hq
    | Hq : (_ =? 0) = false |- _ => apply Z.eqb_neq in Hq
    end; split; intros; try assumption; try contradiction; set_solver.
Qed.

Lemma init_runtime_session_lifetime_witness :
  1 <> NULL /\
  result_of throwing_init (init_runtime 1 no_args) [] = Return (-1) /\
  result_of failing_init (init_runtime 1 no_args) [] = Return (-2) /\
  let tr := trace_of throwing_init (init_runtime 1 no_args) [] in
  let res := result_of throwing_init (init_runtime 1 no_args) [] in
  let calls := map fst tr in
  lifetime_ok ∅ calls = true /\
  (no_throw tr ->
   exists rc, outcome_of is_init_impl tr = Some (Return rc) /\
              res = Return rc /\
              (1 ∈ live_after ∅ calls <-> rc = 0) /\
              destructions 1 calls = if rc =? 0 then 0%nat else 1%nat) /\
  (outcome_of is_init_impl tr = Some Throw ->
   res = Return (-1) /\ 1 ∈ live_after ∅ calls /\
   destructions 1 calls = 0%nat).
Proof.
  assert (H1 : 1 <> NULL) by (unfold NULL; lia).
  split; [exact H1|]. split; [reflexivity|]. split; [reflexivity|].
  exact (init_runtime_session_lifetime throwing_init [] ∅ 1 no_args H1).
Defined.

(** X4.  [init_runtime_impl] only ever runs on a freshly constructed
    [Runtime] whose five [host_api] slots already hold their namesake C
    functions: the calls of [init_runtime] are a prefix of construction,
    the five stores, [init_runtime_impl], destruction, and reach
    [init_runtime_impl] only through the first six. *)
Theorem init_runtime_wires_host_api_first
    {W} (h : Call -> W -> outcome Z * W) (w : W) (r : Z) (a : InitArgs) :
  r <> NULL ->
  let tr := trace_of h (init_runtime r a) w in
  let calls := map fst tr in
  calls `prefix_of`
    (RuntimeNew r :: host_api_wiring r ++ [InitRuntimeImpl r a; RuntimeDelete r]) /\
  (outcome_of is_init_impl tr <> None ->
   take 7 calls = RuntimeNew r :: host_api_wiring r ++ [InitRuntimeImpl r a] /\
   no_throw (take 6 tr)).
Proof.
  intros Hr. open_entry. rewrite (null_is_zero r Hr).
  run_all h; split;
    try (eexists; reflexivity);
    try (intros Hn; now contradiction Hn);
    intros _; (split; [reflexivity|]); unfold no_throw; repeat constructor.
Qed.

Lemma init_runtime_wires_host_api_first_witness :
  1 <> NULL /\
  let tr := trace_of failing_init (init_runtime 1 no_args) [] in
  let calls := map fst tr in
  calls `prefix_of`
    (RuntimeNew 1 :: host_api_wiring 1 ++
       [InitRuntimeImpl 1 no_args; RuntimeDelete 1]) /\
  (outcome_of is_init_impl tr <> None ->
   take 7 calls = RuntimeNew 1 :: host_api_wiring 1 ++ [InitRuntimeImpl 1 no_args] /\
   no_throw (take 6 tr)).
Proof.
  assert (H1 : 1 <> NULL) by (unfold NULL; lia).
  split; [exact H1|].
  exact (init_runtime_wires_host_api_first failing_init [] 1 no_args H1).
Defined.

(** X5.  The null guards outside the session entry points: freeing a null
    device pointer, recording a tensor pair on a null runtime and enabling
    profiling on a null runtime call nothing (the last answers [-1]);
    [set_device] of the simulation calls nothing for any device id. *)
Theorem remaining_null_guards_touch_nothing
    {W} (h : Call -> W -> outcome Z * W) (w : W) :
  interp h (device_free NULL) w = (Return tt, w) /\
  (forall hp dp sz, interp h (record_tensor_pair NULL hp dp sz) w = (Return tt, w)) /\
  (forall e, interp h (enable_runtime_profiling NULL e) w = (Return (-1), w)) /\
  (forall d, interp h (set_device d) w = (Return 0, w)).
Proof. repeat split. Qed.

Lemma binary_of_nonpos (p : HostBuf) (size : Z) :
  (0 <? size) = false -> binary_of p size = [].
Proof.
  intros H. apply Z.ltb_ge in H. destruct p as [bytes|]; [|reflexivity].
  cbn. replace (Z.to_nat size) with 0%nat by lia. reflexivity.
Qed.

(** X6.  When nothing throws, [launch_runtime] on a non-null handle calls
    [DeviceRunner::run] exactly once and returns its status.  The run
    receives the handle, [block_dim], [device_id] and the thread count
    unchanged, and for each binary the first [size] bytes of the buffer,
    or no bytes when the pointer is null or the size is zero. *)
Theorem launch_runtime_forwards_to_run
    {W} (h : Call -> W -> outcome Z * W) (w : W)
    (r n b d : Z) (ab : HostBuf) (az : Z) (cb : HostBuf) (cz : Z) :
  r <> NULL ->
  let tr := trace_of h (launch_runtime r n b d ab az cb cz) w in
  no_throw tr ->
  List.filter is_run (map fst tr) =
    [RunnerRun r b d (binary_of ab az) (binary_of cb cz) n] /\
  exists st, outcome_of is_run tr = Some (Return st) /\
             result_of h (launch_runtime r n b d ab az cb cz) w = Return st.
Proof.
  intros Hr. open_entry. rewrite (null_is_zero r Hr).
  destruct (0 <? az) eqn:Haz, (0 <? cz) eqn:Hcz;
    rewrite ?(binary_of_nonpos ab az Haz), ?(binary_of_nonpos cb cz Hcz);
    destruct ab as [abytes|], cb as [cbytes|];
    run_all h; intros Htr; settle_throws;
    (split; [reflexivity|]); eexists; split; reflexivity.
Qed.

Lemma launch_runtime_forwards_to_run_witness :
  1 <> NULL /\
  let tr := trace_of always_ok
              (launch_runtime 1 2 3 0 (Some [Byte.x7f; Byte.x45; Byte.x4c]) 2
                 None 5) [] in
  no_throw tr /\
  List.filter is_run (map fst tr) =
    [RunnerRun 1 3 0 (binary_of (Some [Byte.x7f; Byte.x45; Byte.x4c]) 2)
       (binary_of None 5) 2] /\
  exists st, outcome_of is_run tr = Some (Return st) /\
             result_of always_ok
               (launch_runtime 1 2 3 0 (Some [Byte.x7f; Byte.x45; Byte.x4c]) 2
                  None 5) [] = Return st.
Proof.
  assert (H1 : 1 <> NULL) by (unfold NULL; lia).
  assert (H2 : no_throw (trace_of always_ok
              (launch_runtime 1 2 3 0 (Some [Byte.x7f; Byte.x45; Byte.x4c]) 2
                 None 5) []))
    by (unfold no_throw; repeat constructor).
  split; [exact H1|]. split; [exact H2|].
  exact (launch_runtime_forwards_to_run always_ok [] 1 2 3 0
           (Some [Byte.x7f; Byte.x45; Byte.x4c]) 2 None 5 H1 H2).
Defined.

(* --------------------------------------------------------------------- *)
(** *** Sessions across entry points                                     *)
(* --------------------------------------------------------------------- *)

Lemma lifetime_ok_app live l1 l2 :
  lifetime_ok live (l1 ++ l2) =
  lifetime_ok live l1 && lifetime_ok (live_after live l1) l2.
Proof.
  revert live. induction l1 as [|c l1 IH]; intros live; [reflexivity|].
  destruct c; cbn; rewrite ?IH, ?andb_assoc; reflexivity.
Qed.

Lemma live_after_app live l1 l2 :
  live_after live (l1 ++ l2) = live_after (live_after live l1) l2.
Proof.
  revert live. induction l1 as [|c l1 IH]; intros live; [reflexivity|].
  destruct c; cbn; apply IH.
Qed.

Lemma destructions_app r l1 l2 :
  destructions r (l1 ++ l2) = (destructions r l1 + destructions r l2)%nat.
Proof. unfold destructions. now rewrite List.filter_app, length_app. Qed.

Lemma constructions_app r l1 l2 :
  constructions r (l1 ++ l2) = (constructions r l1 + constructions r l2)%nat.
Proof. unfold constructions. now rewrite List.filter_app, length_app. Qed.

(** A successful [init_runtime]: construction, wiring, implementation. *)
Lemma init_runtime_success_calls
    {W} (h : Call -> W -> outcome Z * W) (w : W) (r : Z) (a : InitArgs) :
  r <> NULL ->
  result_of h (init_runtime r a) w = Return 0 ->
  map fst (trace_of h (init_runtime r a) w) =
    RuntimeNew r :: host_api_wiring r ++ [InitRuntimeImpl r a].
Proof.
  intros Hr. open_entry. rewrite (null_is_zero r Hr).
  run_all h; intros Hres; try discriminate Hres; try reflexivity.
  injection Hres as ->. discriminate.
Qed.

(** An [init_runtime] that reports an error without an exception. *)
Lemma init_runtime_failure_calls
    {W} (h : Call -> W -> outcome Z * W) (w : W) (r : Z) (a : InitArgs) :
  r <> NULL ->
  no_throw (trace_of h (init_runtime r a) w) ->
  result_of h (init_runtime r a) w <> Return 0 ->
  map fst (trace_of h (init_runtime r a) w) =
    RuntimeNew r :: host_api_wiring r ++ [InitRuntimeImpl r a; RuntimeDelete r].
Proof.
  intros Hr. open_entry. rewrite (null_is_zero r Hr).
  run_all h; intros Htr Hres; settle_throws; try reflexivity.
  apply Z.eqb_eq in Heqb. subst. now contradiction Hres.
Qed.

(** What [launch_runtime] does to sessions: it dereferences its own
    handle at most, and neither constructs nor destroys. *)
Lemma launch_runtime_keeps_sessions
    {W} (h : Call -> W -> outcome Z * W) (w : W) (live : gset Z)
    (r n b d : Z) (ab : HostBuf) (az : Z) (cb : HostBuf) (cz : Z) :
  r ∈ live ->
  let calls := map fst (trace_of h (launch_runtime r n b d ab az cb cz) w) in
  lifetime_ok live calls = true /\ live_after live calls = live /\
  constructions r calls = 0%nat /\ destructions r calls = 0%nat.
Proof.
  intros Hlive. open_entry. unfold constructions, destructions.
  destruct (r =? NULL); [repeat split|].
  destruct ab as [abytes|], cb as [cbytes|];
    destruct (0 <? az), (0 <? cz);
    run_all h; rewrite ?(bool_decide_eq_true_2 _ Hlive); repeat split.
Qed.

Lemma finalize_runtime_complete_calls
    {W} (h : Call -> W -> outcome Z * W) (w : W) (r : Z) :
  r <> NULL ->
  no_throw (trace_of h (finalize_runtime r) w) ->
  map fst (trace_of h (finalize_runtime r) w) = finalize_sequence r.
Proof.
  intros Hr. open_entry. rewrite (null_is_zero r Hr).
  run_all h; intros Htr; settle_throws; reflexivity.
Qed.

Lemma finalize_runtime_first_call
    {W} (h : Call -> W -> outcome Z * W) (w : W) (r : Z) :
  r <> NULL ->
  exists rest, map fst (trace_of h (finalize_runtime r) w) =
               ValidateRuntimeImpl r :: rest.
Proof.
  intros Hr. open_entry. rewrite (null_is_zero r Hr).
  run_all h; eexists; reflexivity.
Qed.

Lemma live_after_init_success live r a :
  live_after live (RuntimeNew r :: host_api_wiring r ++ [InitRuntimeImpl r a])
  = live ∪ {[r]}.
Proof. reflexivity. Qed.

(** X7.  A whole session composes: after an [init_runtime] that returned
    [0], a [launch_runtime] of any outcome and a [finalize_runtime] in
    which nothing throws, every dereference of the session happened while
    its [Runtime] was constructed, the [Runtime] was constructed once and
    destroyed once, and no constructed [Runtime] is left behind. *)
Theorem session_lifecycle_is_balanced
    {W} (h : Call -> W -> outcome Z * W) (w : W) (r : Z) (a : InitArgs)
    (n b d : Z) (ab : HostBuf) (az : Z) (cb : HostBuf) (cz : Z) :
  r <> NULL ->
  let launch := launch_runtime r n b d ab az cb cz in
  let w1 := snd (interp h (init_runtime r a) w) in
  let w2 := snd (interp h launch w1) in
  result_of h (init_runtime r a) w = Return 0 ->
  no_throw (trace_of h (finalize_runtime r) w2) ->
  let calls := map fst (trace_of h (init_runtime r a) w) ++
               map fst (trace_of h launch w1) ++
               map fst (trace_of h (finalize_runtime r) w2) in
  lifetime_ok ∅ calls = true /\
  live_after ∅ calls = ∅ /\
  constructions r calls = 1%nat /\
  destructions r calls = 1%nat.
Proof.
  intros Hr launch w1 w2 Hinit Hfin calls. subst calls.
  rewrite (init_runtime_success_calls h w r a Hr Hinit).
  rewrite (finalize_runtime_complete_calls h w2 r Hr Hfin).
  assert (Hlive : r ∈ (∅ ∪ {[r]} : gset Z)) by set_solver.
  destruct (launch_runtime_keeps_sessions h w1 (∅ ∪ {[r]}) r n b d ab az cb cz Hlive)
    as (Hok & Hafter & Hnew & Hdel).
  fold launch in Hok, Hafter, Hnew, Hdel.
  rewrite !lifetime_ok_app, !live_after_app, !constructions_app, !destructions_app.
  rewrite live_after_init_success, Hok, Hafter, Hnew, Hdel.
  unfold finalize_sequence, constructions, destructions. cbn.
  rewrite !(bool_decide_eq_true_2 _ Hlive), ?Z.eqb_refl. cbn.
  repeat split. set_solver.
Qed.

Lemma session_lifecycle_is_balanced_witness :
  1 <> NULL /\
  let launch := launch_runtime 1 1 1 0 None 0 None 0 in
  let w1 := snd (interp failing_run (init_runtime 1 no_args) []) in
  let w2 := snd (interp failing_run launch w1) in
  result_of failing_run launch w1 = Return (-3) /\
  let calls := map fst (trace_of failing_run (init_runtime 1 no_args) []) ++
               map fst (trace_of failing_run launch w1) ++
               map fst (trace_of failing_run (finalize_runtime 1) w2) in
  lifetime_ok ∅ calls = true /\
  live_after ∅ calls = ∅ /\
  constructions 1 calls = 1%nat /\
  destructions 1 calls = 1%nat.
Proof.
  assert (H1 : 1 <> NULL) by (unfold NULL; lia).
  split; [exact H1|]. split; [reflexivity|].
  apply (session_lifecycle_is_balanced failing_run [] 1 no_args 1 1 0 None 0 None 0 H1).
  - reflexivity.
  - unfold no_throw. repeat constructor.
Defined.

(** X8.  [finalize_runtime] does not remember that it ran: a second call
    on the same handle, after a first one in which nothing threw, passes
    a destroyed [Runtime] to [validate_runtime_impl]. *)
Theorem second_finalize_uses_destroyed_session
    {W} (h : Call -> W -> outcome Z * W) (w : W) (live : gset Z) (r : Z) :
  r <> NULL ->
  no_throw (trace_of h (finalize_runtime r) w) ->
  let w1 := snd (interp h (finalize_runtime r) w) in
  let first := map fst (trace_of h (finalize_runtime r) w) in
  let second := map fst (trace_of h (finalize_runtime r) w1) in
  (r ∉ live_after live first) /\
  head second = Some (ValidateRuntimeImpl r) /\
  lifetime_ok live (first ++ second) = false.
Proof.
  intros Hr Hfin w1 first second. subst first second.
  rewrite (finalize_runtime_complete_calls h w r Hr Hfin).
  destruct (finalize_runtime_first_call h w1 r Hr) as (rest & ->).
  assert (Hgone : r ∉ live ∖ {[r]}) by set_solver.
  split; [exact Hgone|]. split; [reflexivity|].
  rewrite lifetime_ok_app. unfold finalize_sequence. cbn.
  rewrite (bool_decide_eq_false_2 _ Hgone). cbn.
  now rewrite andb_false_r.
Qed.

Lemma second_finalize_uses_destroyed_session_witness :
  1 <> NULL /\
  let w1 := snd (interp always_ok (finalize_runtime 1) []) in
  let first := map fst (trace_of always_ok (finalize_runtime 1) []) in
  let second := map fst (trace_of always_ok (finalize_runtime 1) w1) in
  (1 ∉ live_after {[1]} first) /\
  head second = Some (ValidateRuntimeImpl 1) /\
  lifetime_ok {[1]} (first ++ second) = false.
Proof.
  assert (H1 : 1 <> NULL) by (unfold NULL; lia).
  split; [exact H1|].
  apply (second_finalize_uses_destroyed_session always_ok [] {[1]} 1 H1).
  unfold no_throw. repeat constructor.
Defined.

(** X9.  After an [init_runtime] that reported an error without an
    exception the [Runtime] is already destroyed: a [finalize_runtime] on
    that handle passes the destroyed object to [validate_runtime_impl]. *)
Theorem finalize_after_failed_init_uses_destroyed_session
    {W} (h : Call -> W -> outcome Z * W) (w : W) (live : gset Z) (r : Z)
    (a : InitArgs) :
  r <> NULL ->
  no_throw (trace_of h (init_runtime r a) w) ->
  result_of h (init_runtime r a) w <> Return 0 ->
  let w1 := snd (interp h (init_runtime r a) w) in
  let init := map fst (trace_of h (init_runtime r a) w) in
  let fin := map fst (trace_of h (finalize_runtime r) w1) in
  lifetime_ok live init = true /\
  (r ∉ live_after live init) /\
  lifetime_ok live (init ++ fin) = false.
Proof.
  intros Hr Htr Hres w1 init fin. subst init fin.
  rewrite (init_runtime_failure_calls h w r a Hr Htr Hres).
  destruct (finalize_runtime_first_call h w1 r Hr) as (rest & ->).
  assert (Hin : r ∈ live ∪ {[r]}) by set_solver.
  assert (Hgone : r ∉ (live ∪ {[r]}) ∖ {[r]}) by set_solver.
  rewrite lifetime_ok_app. cbn.
  rewrite !(bool_decide_eq_true_2 _ Hin), (bool_decide_eq_false_2 _ Hgone). cbn.
  repeat split. exact Hgone.
Qed.

Lemma finalize_after_failed_init_witness :
  1 <> NULL /\
  result_of failing_init (init_runtime 1 no_args) [] = Return (-2) /\
  let w1 := snd (interp failing_init (init_runtime 1 no_args) []) in
  let init := map fst (trace_of failing_init (init_runtime 1 no_args) []) in
  let fin := map fst (trace_of failing_init (finalize_runtime 1) w1) in
  lifetime_ok ∅ init = true /\
  (1 ∉ live_after ∅ init) /\
  lifetime_ok ∅ (init ++ fin) = false.
Proof.
  assert (H1 : 1 <> NULL) by (unfold NULL; lia).
  split; [exact H1|]. split; [reflexivity|].
  apply (finalize_after_failed_init_uses_destroyed_session
           failing_init [] ∅ 1 no_args H1).
  - unfold no_throw. repeat constructor.
  - discriminate.
Defined.

(** X10.  The cleanup of [finalize_runtime] is all or nothing up to the
    destructor: the [Runtime] is destroyed exactly when validation, the
    singleton access, [clean_cache] and [DeviceRunner::finalize] all
    returned; when one of them throws, the later steps are skipped, the
    [Runtime] stays constructed and the result is [-1]. *)
Theorem finalize_runtime_destroys_only_after_full_cleanup
    {W} (h : Call -> W -> outcome Z * W) (w : W) (r : Z) :
  r <> NULL ->
  let tr := trace_of h (finalize_runtime r) w in
  let calls := map fst tr in
  (no_throw (take 4 tr) ->
   take 4 calls = take 4 (finalize_sequence r) /\
   destructions r calls = 1%nat) /\
  (some_throw (take 4 tr) ->
   destructions r calls = 0%nat /\
   (length calls <= 4)%nat /\
   result_of h (finalize_runtime r) w = Return (-1)).
Proof.
  intros Hr. open_entry. unfold destructions. rewrite (null_is_zero r Hr).
  run_all h; rewrite ?Z.eqb_refl; cbn; split; intros Htr; settle_throws;
    repeat split; cbn; lia.
Qed.

Lemma finalize_runtime_destroys_only_after_full_cleanup_witness :
  1 <> NULL /\
  let tr := trace_of throwing_cleanup (finalize_runtime 1) [] in
  let calls := map fst tr in
  calls = [ValidateRuntimeImpl 1; DeviceRunnerGet; RunnerCleanCache] /\
  (no_throw (take 4 tr) ->
   take 4 calls = take 4 (finalize_sequence 1) /\
   destructions 1 calls = 1%nat) /\
  (some_throw (take 4 tr) ->
   destructions 1 calls = 0%nat /\
   (length calls <= 4)%nat /\
   result_of throwing_cleanup (finalize_runtime 1) [] = Return (-1)).
Proof.
  assert (H1 : 1 <> NULL) by (unfold NULL; lia).
  split; [exact H1|]. split; [reflexivity|].
  exact (finalize_runtime_destroys_only_after_full_cleanup
           throwing_cleanup [] 1 H1).
Defined.

End CApiExtras.

(* ===================================================================== *)
(** ** Further properties of the AICPU kernel entry points               *)
(* ===================================================================== *)

Module AicpuKernelFacts.
Import Effects AicpuKernel AicpuKernelObs.

Ltac serve hk :=
  cbn;
  repeat (match goal with
          | |- context [hk ?c ?w] =>
              is_var w; destruct (hk c w) as [[?|] ?] eqn:?; cbn
          | |- context [if negb (?x =? 0) then _ else _] =>
              destruct (x =? 0) eqn:?; cbn
          end).

(** X11.  [DynTileFwkBackendKernelServer] calls [AicpuExecute] at most
    once, exactly when the argument and its [runtimeArgs] are both
    non-null, and on that [runtimeArgs].  Its result is what
    [AicpuExecute] produced: the same status, zero or not, or the same
    exception; it is [-1] when [AicpuExecute] was not called. *)
Theorem dyn_server_result_is_executor_status
    {K} (hk : Call -> K -> outcome Z * K) (k : K) (arg : ArgPtr) :
  let tr := trace_of hk (DynTileFwkBackendKernelServer arg) k in
  let res := result_of hk (DynTileFwkBackendKernelServer arg) k in
  List.filter is_execute (map fst tr) =
    match arg with
    | Some kargs =>
        if runtimeArgs kargs =? 0 then [] else [AicpuExecute (runtimeArgs kargs)]
    | None => []
    end /\
  res = match execute_outcome tr with
        | Some (Return rc) => Return rc
        | Some Throw => Throw
        | None => Return (-1)
        end.
Proof.
  unfold trace_of, result_of, DynTileFwkBackendKernelServer, DEV_ERROR,
    DEV_INFO, quiet.
  destruct arg as [[runtime]|]; cbn [runtimeArgs];
    [destruct (runtime =? 0)|]; serve hk; split; reflexivity.
Qed.

(** X12.  The three kernel servers log at error level exactly when they
    fail: a returned status other than [0] comes with one error line, a
    returned [0] with none. *)
Theorem kernel_servers_log_an_error_iff_they_fail
    {K} (hk : Call -> K -> outcome Z * K) (k : K) (arg : ArgPtr) :
  forall entry,
    In entry [StaticTileFwkBackendKernelServer arg;
              DynTileFwkBackendKernelServerInit arg;
              DynTileFwkBackendKernelServer arg] ->
    forall rc, result_of hk entry k = Return rc ->
    error_lines (map fst (trace_of hk entry k)) =
      if rc =? 0 then 0%nat else 1%nat.
Proof.
  intros entry Hin rc.
  unfold trace_of, result_of, error_lines.
  repeat (destruct Hin as [<-|Hin]); try contradiction;
    unfold StaticTileFwkBackendKernelServer, DynTileFwkBackendKernelServerInit,
      DynTileFwkBackendKernelServer, DEV_ERROR, DEV_INFO, quiet;
    destruct arg as [[runtime]|]; cbn [runtimeArgs];
    try destruct (runtime =? 0); serve hk;
    intros Hres; try discriminate Hres; injection Hres as <-;
    rewrite ?Heqb; reflexivity.
Qed.

Lemma kernel_servers_log_an_error_witness :
  error_lines
    (map fst (trace_of (executor 7)
                (DynTileFwkBackendKernelServer (Some {| runtimeArgs := 5 |})) []))
  = (if 7 =? 0 then 0%nat else 1%nat) /\
  error_lines
    (map fst (trace_of (executor 0)
                (DynTileFwkBackendKernelServer (Some {| runtimeArgs := 5 |})) []))
  = (if 0 =? 0 then 0%nat else 1%nat).
Proof.
  split.
  - apply (kernel_servers_log_an_error_iff_they_fail (executor 7) []
             (Some {| runtimeArgs := 5 |})
             (DynTileFwkBackendKernelServer (Some {| runtimeArgs := 5 |}))).
    + cbn. tauto.
    + reflexivity.
  - apply (kernel_servers_log_an_error_iff_they_fail (executor 0) []
             (Some {| runtimeArgs := 5 |})
             (DynTileFwkBackendKernelServer (Some {| runtimeArgs := 5 |}))).
    + cbn. tauto.
    + reflexivity.
Defined.

(** X13.  [DynTileFwkBackendKernelServerInit] initialises the log switch
    first and once, on every input, null included; neither it nor
    [StaticTileFwkBackendKernelServer] ever calls [AicpuExecute], and
    both return [0] exactly when the argument is non-null. *)
Theorem init_and_static_servers_validate_only
    {K} (hk : Call -> K -> outcome Z * K) (k : K) (arg : ArgPtr) :
  let init := DynTileFwkBackendKernelServerInit arg in
  let static := StaticTileFwkBackendKernelServer arg in
  let status := match arg with Some _ => 0 | None => -1 end in
  head (map fst (trace_of hk init k)) = Some InitLogSwitch /\
  length (List.filter is_init_log (map fst (trace_of hk init k))) = 1%nat /\
  executions (map fst (trace_of hk init k)) = 0%nat /\
  result_of hk init k = Return status /\
  List.filter (fun c => negb (is_log_line c)) (map fst (trace_of hk static k)) = [] /\
  result_of hk static k = Return status.
Proof.
  unfold trace_of, result_of, executions,
    StaticTileFwkBackendKernelServer, DynTileFwkBackendKernelServerInit,
    DEV_ERROR, DEV_INFO, quiet.
  destruct arg as [kargs|]; serve hk; repeat split.
Qed.

End AicpuKernelFacts.

(* ===================================================================== *)
(** ** Further properties of the simulated tick counter                  *)
(* ===================================================================== *)

Module DeviceTimeExtras.
Import DeviceTime DeviceTimeFacts.

(** X14.  Whole seconds of host time are worth exactly [freq] ticks
    each: a reading taken [s] seconds later is larger by [s * freq],
    whatever the sub-second part of the first reading. *)
Theorem one_second_is_freq_ticks (freq n s : Z) :
  0 < freq -> (kNsPerSec - 1) * freq < 2 ^ 64 ->
  0 <= n -> 0 <= s ->
  (n + s * kNsPerSec) * freq / kNsPerSec < 2 ^ 64 ->
  get_sys_cnt_aicpu freq (n + s * kNsPerSec) =
  get_sys_cnt_aicpu freq n + s * freq.
Proof.
  intros Hf Hr Hn Hs Hfit.
  assert (Hk : 0 < kNsPerSec) by (unfold kNsPerSec; lia).
  assert (Hsplit : (n + s * kNsPerSec) * freq = n * freq + s * freq * kNsPerSec)
    by ring.
  assert (Hdiv : (n + s * kNsPerSec) * freq / kNsPerSec
                 = n * freq / kNsPerSec + s * freq).
  { rewrite Hsplit. apply Z.div_add. lia. }
  rewrite (ticks_no_wrap freq (n + s * kNsPerSec)) by (try nia; lia).
  assert (Hfit' : n * freq / kNsPerSec < 2 ^ 64)
    by (rewrite Hdiv in Hfit; nia).
  rewrite (ticks_no_wrap freq n) by lia.
  exact Hdiv.
Qed.

Lemma one_second_is_freq_ticks_witness :
  get_sys_cnt_aicpu 50000000 (1700000000123456789 + 3 * kNsPerSec) =
  get_sys_cnt_aicpu 50000000 1700000000123456789 + 3 * 50000000.
Proof.
  apply (one_second_is_freq_ticks 50000000 1700000000123456789 3);
    try (unfold kNsPerSec; lia).
  vm_compute. reflexivity.
Defined.

End DeviceTimeExtras.

(* ===================================================================== *)
(** ** Properties of the tile kernel helpers                             *)
(* ===================================================================== *)

Module TileKernelFacts.
Import TileKernel.

Lemma wrap32_small x : - 2 ^ 31 <= x < 2 ^ 31 -> wrap32 x = x.
Proof. intros H. unfold wrap32. rewrite Z.mod_small; lia. Qed.

(** Without overflow and on a non-negative numerator the body is the
    mathematical [d * floor ((n + d - 1) / d)]. *)
Lemma CeilAlign_exact n d :
  0 <= n -> 0 < d -> n + d <= INT_MAX ->
  CeilAlign n d = (n + d - 1) / d * d /\
  n <= (n + d - 1) / d * d <= n + d - 1.
Proof.
  intros Hn Hd Hmax. unfold INT_MAX in Hmax.
  assert (Hq : 0 <= (n + d - 1) / d) by (apply Z.div_pos; lia).
  pose proof (Z.mul_div_le (n + d - 1) d Hd) as Hle.
  pose proof (Z.mul_succ_div_gt (n + d - 1) d Hd) as Hgt.
  assert (Hbounds : n <= (n + d - 1) / d * d <= n + d - 1) by lia.
  split; [|exact Hbounds].
  unfold CeilAlign. rewrite (proj2 (Z.eqb_neq d 0)) by lia.
  rewrite (wrap32_small (n + d)) by lia.
  rewrite (wrap32_small (n + d - 1)) by lia.
  rewrite Z.quot_div_nonneg by lia.
  rewrite (wrap32_small ((n + d - 1) / d)) by nia.
  apply wrap32_small. lia.
Qed.

(** X15.  On a non-negative [num_1] and a positive [num_2] whose sum fits
    an [int], [CeilAlign] returns the least multiple of [num_2] that is
    not below [num_1]; it exceeds [num_1] by less than [num_2]. *)
Theorem CeilAlign_is_least_multiple (n d : Z) :
  0 <= n -> 0 < d -> n + d <= INT_MAX ->
  let c := CeilAlign n d in
  (d | c) /\ n <= c < n + d /\
  (forall m, (d | m) -> n <= m -> c <= m).
Proof.
  intros Hn Hd Hmax. cbn zeta.
  destruct (CeilAlign_exact n d Hn Hd Hmax) as (-> & Hlo & Hhi).
  split; [apply Z.divide_factor_r|]. split; [lia|].
  intros m [j ->] Hm.
  destruct (Z_lt_le_dec j ((n + d - 1) / d)) as [Hlt|Hge]; [|nia].
  assert (j + 1 <= (n + d - 1) / d) by lia.
  nia.
Qed.

Lemma CeilAlign_is_least_multiple_witness :
  let c := CeilAlign 70 16 in
  (16 | c) /\ 70 <= c < 70 + 16 /\
  (forall m, (16 | m) -> 70 <= m -> c <= m).
Proof.
  apply (CeilAlign_is_least_multiple 70 16); unfold INT_MAX; lia.
Defined.

(** [/] truncates toward zero, so below zero the result is not the least
    multiple: [-4] is a multiple of [4] above [-5]. *)
Example CeilAlign_negative_numerator : CeilAlign (-5) 4 = 0.
Proof. reflexivity. Qed.

(** A multiple of the alignment is returned as it is. *)
Lemma CeilAlign_multiple_fixed x d :
  0 <= x -> 0 < d -> x + d <= INT_MAX -> (d | x) -> CeilAlign x d = x.
Proof.
  intros Hx Hd Hxm [j ->].
  destruct (CeilAlign_exact (j * d) d Hx Hd Hxm) as (-> & _).
  replace (j * d + d - 1) with (d - 1 + j * d) by ring.
  rewrite Z.div_add by lia. rewrite Z.div_small by lia. ring.
Qed.

(** X16.  [CeilAlign] leaves a multiple of the alignment unchanged and
    aligning twice is aligning once. *)
Theorem CeilAlign_idempotent (n d : Z) :
  0 <= n -> 0 < d -> n + 2 * d <= INT_MAX ->
  ((d | n) -> CeilAlign n d = n) /\
  CeilAlign (CeilAlign n d) d = CeilAlign n d.
Proof.
  intros Hn Hd Hmax. split.
  - apply CeilAlign_multiple_fixed; lia.
  - destruct (CeilAlign_exact n d Hn Hd ltac:(lia)) as (Hc & Hlo & Hhi).
    apply CeilAlign_multiple_fixed.
    + rewrite Hc. lia.
    + exact Hd.
    + rewrite Hc. lia.
    + rewrite Hc. apply Z.divide_factor_r.
Qed.

Lemma CeilAlign_idempotent_witness :
  ((16 | 70) -> CeilAlign 70 16 = 70) /\
  CeilAlign (CeilAlign 70 16) 16 = CeilAlign 70 16.
Proof.
  apply (CeilAlign_idempotent 70 16); unfold INT_MAX; lia.
Defined.

(** X17.  The padded dimensions of the GEMM tile.  [M] is [TILE]; for a
    block alignment that divides [TILE], [K] and [N] are [TILE] too, so
    the tiles are not padded; a [C0_SIZE_BYTE] below [sizeof(float)]
    gives a block alignment of zero and degenerate dimensions [0]. *)
Theorem gemm_tile_dimensions (C0_SIZE_BYTE : Z) :
  0 <= C0_SIZE_BYTE ->
  M = TILE /\
  ((blockAlign C0_SIZE_BYTE | TILE) -> 0 < blockAlign C0_SIZE_BYTE ->
   K C0_SIZE_BYTE = TILE /\ N C0_SIZE_BYTE = TILE) /\
  (C0_SIZE_BYTE < 4 -> K C0_SIZE_BYTE = 0 /\ N C0_SIZE_BYTE = 0).
Proof.
  intros Hc. split; [reflexivity|]. split.
  - intros Hdiv Hpos. unfold K, N.
    assert (Hle : blockAlign C0_SIZE_BYTE <= TILE)
      by (apply Z.divide_pos_le; [unfold TILE; lia|exact Hdiv]).
    assert (H : CeilAlign TILE (blockAlign C0_SIZE_BYTE) = TILE).
    { apply CeilAlign_multiple_fixed;
        unfold TILE, INT_MAX in *; try lia. exact Hdiv. }
    now rewrite H.
  - intros Hsmall. unfold K, N, blockAlign.
    rewrite Z.quot_small by lia. split; reflexivity.
Qed.

Lemma gemm_tile_dimensions_witness :
  M = TILE /\
  ((blockAlign 32 | TILE) -> 0 < blockAlign 32 ->
   K 32 = TILE /\ N 32 = TILE) /\
  (32 < 4 -> K 32 = 0 /\ N 32 = 0).
Proof.
  apply (gemm_tile_dimensions 32). lia.
Defined.

End TileKernelFacts.
